(** * UxPlay BLE beacon helper ([mac_beacon.py]): model and properties

    The script reads the port that a running UxPlay receiver stored in
    [~/.uxplay.ble], chooses an IPv4 address of the host, packs both into a
    twelve byte manufacturer-data record and hands it to CoreBluetooth.

    The development follows the script function by function:
    - [Py]: the fragment of the Python runtime the script relies on
      (exceptions, [print], [sys.exit], [bytes.split], [bytes.decode],
      [str.isdigit], [int], [struct.pack]/[struct.unpack], [str.startswith]);
    - [Inet]: the C routine behind [socket.inet_aton];
    - [Beacon]: [get_best_ip], [get_uxplay_port] and
      [BeaconDelegate.start_advertising];
    - the properties, one section of lemmas per function. *)

From Stdlib Require Import ZArith List Bool Lia.
From Stdlib.Strings Require Import String Ascii Byte.
From Stdlib.Numbers Require Import DecimalString.
Import ListNotations.

Local Open Scope string_scope.
Local Open Scope list_scope.
Local Open Scope Z_scope.

(* ================================================================= *)
(** ** The Python runtime fragment *)

Module Py.

(** Exceptions that can arise in the script.  All of them derive from
    [Exception]; [SystemExit] does not and is kept apart in [outcome]. *)
Inductive exn : Type :=
| OSError
| ValueError
| UnicodeDecodeError
| IndexError
| StructError.

(** What the process does that is visible from outside: console lines and
    the call [manager.startAdvertising_(adv_data)]. *)
Inductive event : Type :=
| Print (line : string)
| StartAdvertising (local_name : string) (manufacturer_data : list byte).

Inductive outcome (A : Type) : Type :=
| Ret (a : A)
| Raise (e : exn)
| SysExit (code : Z).

Arguments Ret {A} a.
Arguments Raise {A} e.
Arguments SysExit {A} code.

(** A computation: the events it emitted, in order, and how it ended. *)
Definition M (A : Type) : Type := (list event * outcome A)%type.

Definition ret {A} (a : A) : M A := ([], Ret a).

Definition bind {A B} (m : M A) (k : A -> M B) : M B :=
  match m with
  | (t, Ret a) => let (t', r) := k a in (t ++ t', r)
  | (t, Raise e) => (t, Raise e)
  | (t, SysExit c) => (t, SysExit c)
  end.

Definition raise {A} (e : exn) : M A := ([], Raise e).
Definition sys_exit {A} (code : Z) : M A := ([], SysExit code).
Definition print (line : string) : M unit := ([Print line], Ret tt).

(** The result of a call into the operating system or a C library. *)
Definition call {A} (r : exn + A) : M A :=
  match r with
  | inl e => raise e
  | inr a => ret a
  end.

(** [try: body / except Exception: pass].  The body yields [Some v] when it
    executed [return v] and [None] when control reached its end; an exception
    is dropped and control continues after the statement.  [SystemExit] is
    not an [Exception] and passes through. *)
Definition try_pass {A} (body : M (option A)) : M (option A) :=
  match body with
  | (t, Raise _) => (t, Ret None)
  | other => other
  end.

Definition trace {A} (m : M A) : list event := fst m.
Definition result {A} (m : M A) : outcome A := snd m.

(** *** Bytes and text *)

Definition byte_val (b : byte) : Z := Z.of_N (Byte.to_N b).

Definition byte_of_Z (z : Z) : byte :=
  match Byte.of_N (Z.to_N z) with
  | Some b => b
  | None => x00
  end.

Definition char_code (c : ascii) : Z := Z.of_N (N_of_ascii c).

(** [content.split(sep)] for a one byte separator. *)
Fixpoint bytes_split (sep : byte) (content : list byte) : list (list byte) :=
  match content with
  | [] => [[]]
  | b :: rest =>
      if Byte.eqb b sep then [] :: bytes_split sep rest
      else match bytes_split sep rest with
           | chunk :: chunks => (b :: chunk) :: chunks
           | [] => [[b]]
           end
  end.

(** [xs[0]] *)
Definition index0 {A} (xs : list A) : M A :=
  match xs with
  | x :: _ => ret x
  | [] => raise IndexError
  end.

(** [chunk.decode('ascii')] *)
Fixpoint decode_ascii (chunk : list byte) : M string :=
  match chunk with
  | [] => ret EmptyString
  | b :: rest =>
      if byte_val b <? 128 then
        bind (decode_ascii rest) (fun s => ret (String (ascii_of_byte b) s))
      else raise UnicodeDecodeError
  end.

Definition is_decimal_char (c : ascii) : bool :=
  (48 <=? char_code c) && (char_code c <=? 57).

Fixpoint all_decimal (s : string) : bool :=
  match s with
  | EmptyString => true
  | String c s' => is_decimal_char c && all_decimal s'
  end.

(** [s.isdigit()] on text that came out of an ASCII decode: true when [s] is
    not empty and all its characters are among [0]..[9]. *)
Definition isdigit (s : string) : bool :=
  match s with
  | EmptyString => false
  | String _ _ => all_decimal s
  end.

Fixpoint int_acc (acc : Z) (s : string) : Z :=
  match s with
  | EmptyString => acc
  | String c s' => int_acc (10 * acc + (char_code c - 48)) s'
  end.

(** [sys.int_info.default_max_str_digits]: the longest decimal text that
    CPython's [int] converts, unless the limit was changed. *)
Definition INT_MAX_STR_DIGITS : Z := 4300.

(** [int(s)] for [s] made of decimal digits: the integer they denote
    (leading zeros allowed), of any size the digit limit lets through; a
    longer text raises [ValueError]. *)
Definition int (s : string) : M Z :=
  if INT_MAX_STR_DIGITS <? Z.of_nat (String.length s)
  then raise ValueError
  else ret (int_acc 0 s).

(** [str(n)] as used by an f-string. *)
Definition str_of_int (n : Z) : string := NilZero.string_of_int (Z.to_int n).

(** [struct.pack(">H", v)] *)
Definition struct_pack_H (v : Z) : M (list byte) :=
  if (0 <=? v) && (v <=? 65535)
  then ret [byte_of_Z (v / 256); byte_of_Z (v mod 256)]
  else raise StructError.

(** [struct.unpack(">H", data)[0]] *)
Definition struct_unpack_H (data : list byte) : M Z :=
  match data with
  | [hi; lo] => ret (256 * byte_val hi + byte_val lo)
  | _ => raise StructError
  end.

(** [s.startswith(p)] *)
Definition startswith (s p : string) : bool := String.prefix p s.

End Py.

Notation "x <- m ;; k" := (Py.bind m (fun x => k))
  (at level 61, m at next level, right associativity).

(* ================================================================= *)
(** ** [socket.inet_aton]

    The script converts the address text with [socket.inet_aton], a thin
    wrapper around the C library routine of the same name.  The routine is
    modelled after the BSD implementation shipped in the macOS C library
    (the script is a CoreBluetooth program): numbers are read "as for C"
    (leading [0x] hexadecimal, leading [0] octal, decimal otherwise), one to
    four of them separated by dots, the last one filling the remaining
    bytes, and the text may go on after a white space. *)

Module Inet.
Import Py.

Definition c_isascii (c : ascii) : bool := char_code c <? 128.
Definition c_isdigit (c : ascii) : bool :=
  (48 <=? char_code c) && (char_code c <=? 57).
Definition c_islower (c : ascii) : bool :=
  (97 <=? char_code c) && (char_code c <=? 122).
Definition c_isxdigit (c : ascii) : bool :=
  c_isdigit c
  || ((97 <=? char_code c) && (char_code c <=? 102))
  || ((65 <=? char_code c) && (char_code c <=? 70)).
Definition c_isspace (c : ascii) : bool :=
  (char_code c =? 32) || ((9 <=? char_code c) && (char_code c <=? 13)).

(** [u_long] arithmetic. *)
Definition wrap64 (v : Z) : Z := v mod 2 ^ 64.

(** The inner [for (;;)] of the routine: collect the digits of one number in
    the given base.  Yields the value, whether a digit was seen, and the text
    from the first character that is not part of the number; [None] is the
    routine's [return (0)]. *)
Fixpoint scan_number (base val : Z) (digit : bool) (cp : string)
  : option (Z * bool * string) :=
  match cp with
  | EmptyString => Some (val, digit, cp)
  | String c cp' =>
      if c_isascii c && c_isdigit c then
        if (base =? 8) && ((char_code c =? 56) || (char_code c =? 57))
        then None
        else scan_number base (wrap64 (val * base + (char_code c - 48))) true cp'
      else if (base =? 16) && c_isascii c && c_isxdigit c then
        scan_number base
          (wrap64 (Z.lor (Z.shiftl val 4)
                         (char_code c + 10 - (if c_islower c then 97 else 65))))
          true cp'
      else Some (val, digit, cp)
  end.

(** One number: the [isdigit] test on its first character, the base prefix,
    then the digits. *)
Definition read_number (cp : string) : option (Z * bool * string) :=
  match cp with
  | EmptyString => None
  | String c cp' =>
      if negb (c_isdigit c) then None
      else if char_code c =? 48 then
        match cp' with
        | String x cp'' =>
            if (char_code x =? 120) || (char_code x =? 88)
            then scan_number 16 0 false cp''
            else scan_number 8 0 true cp'
        | EmptyString => scan_number 8 0 true cp'
        end
      else scan_number 10 0 false cp
  end.

(** After the last number: nothing, or a white space, may follow; a digit
    must have been read; the last number is bounded by the bytes it fills. *)
Definition finish (parts : list Z) (val : Z) (digit : bool) (rest : string)
  : option Z :=
  let trailing_ok :=
    match rest with
    | EmptyString => true
    | String c _ => c_isascii c && c_isspace c
    end in
  if negb trailing_ok then None
  else if negb digit then None
  else
    match parts with
    | [] => Some (val mod 2 ^ 32)
    | [a] =>
        if val >? 16777215 then None
        else Some (Z.lor val (Z.shiftl a 24))
    | [a; b] =>
        if val >? 65535 then None
        else Some (Z.lor val (Z.lor (Z.shiftl a 24) (Z.shiftl b 16)))
    | [a; b; c] =>
        if val >? 255 then None
        else Some (Z.lor val (Z.lor (Z.lor (Z.shiftl a 24) (Z.shiftl b 16))
                                    (Z.shiftl c 8)))
    | _ => None
    end.

(** The outer [for (;;)]: [slots] is the room left in [parts] for numbers
    that are followed by a dot (three at the start). *)
Fixpoint collect_parts (slots : nat) (parts : list Z) (cp : string)
  : option Z :=
  match read_number cp with
  | None => None
  | Some (val, digit, rest) =>
      match rest with
      | String "." rest' =>
          match slots with
          | O => None
          | S slots' =>
              if val >? 255 then None
              else collect_parts slots' (parts ++ [val]) rest'
          end
      | _ => finish parts val digit rest
      end
  end.

(** The address in host order, or [None] when the routine returns 0. *)
Definition inet_aton (cp : string) : option Z := collect_parts 3 [] cp.

(** The four bytes of [s_addr], in network order. *)
Definition s_addr_bytes (addr : Z) : list byte :=
  [ byte_of_Z (Z.shiftr addr 24 mod 256);
    byte_of_Z (Z.shiftr addr 16 mod 256);
    byte_of_Z (Z.shiftr addr 8 mod 256);
    byte_of_Z (addr mod 256) ].

Fixpoint has_nul (s : string) : bool :=
  match s with
  | EmptyString => false
  | String c s' => (char_code c =? 0) || has_nul s'
  end.

(** [socket.inet_aton(ip_string)]: the argument must not hold a null
    character ([ValueError]); a text the C routine rejects gives [OSError]. *)
Definition socket_inet_aton (ip_string : string) : M (list byte) :=
  if has_nul ip_string then raise ValueError
  else
    match inet_aton ip_string with
    | Some addr => ret (s_addr_bytes addr)
    | None => raise OSError
    end.

End Inet.

(* ================================================================= *)
(** ** The script *)

Module Beacon.
Import Py.

(** What the network stack answers to the calls of [get_best_ip]. *)
Record Network : Type := {
  socket_socket : exn + unit;          (* socket.socket(AF_INET, SOCK_DGRAM) *)
  socket_connect : exn + unit;         (* s.connect(("8.8.8.8", 80)) *)
  socket_getsockname : exn + string;   (* s.getsockname()[0] *)
  socket_close : exn + unit;           (* s.close() *)
  socket_gethostname : exn + string;   (* socket.gethostname() *)
  socket_gethostbyname_ex : string -> exn + list string
                                       (* socket.gethostbyname_ex(h)[2] *)
}.

(** The surroundings of one run: the expanded [BLE_FILE_PATH], the file
    found there ([None] when [os.path.exists] is false, otherwise what
    [open] and [read] give), and the network. *)
Record World : Type := {
  BLE_FILE_PATH : string;
  ble_file : option (exn + list byte);
  network : Network
}.

Definition LOOPBACK : string := "127.0.0.1".

(** First loop of attempt 2. *)
Fixpoint first_prefixed (ip_list : list string) : option string :=
  match ip_list with
  | [] => None
  | ip :: rest =>
      if startswith ip "192.168." then Some ip
      else if startswith ip "10." then Some ip
      else if startswith ip "172." then Some ip
      else first_prefixed rest
  end.

(** Second loop of attempt 2. *)
Fixpoint first_non_loopback (ip_list : list string) : option string :=
  match ip_list with
  | [] => None
  | ip :: rest =>
      if negb (String.eqb ip LOOPBACK) then Some ip
      else first_non_loopback rest
  end.

(** Body of the first [try]. *)
Definition attempt_connect (net : Network) : M (option string) :=
  _ <- call (socket_socket net) ;;
  _ <- call (socket_connect net) ;;
  ip <- call (socket_getsockname net) ;;
  _ <- call (socket_close net) ;;
  if negb (String.eqb ip LOOPBACK) then ret (Some ip) else ret None.

(** Body of the second [try]. *)
Definition attempt_interfaces (net : Network) : M (option string) :=
  hostname <- call (socket_gethostname net) ;;
  ip_list <- call (socket_gethostbyname_ex net hostname) ;;
  match first_prefixed ip_list with
  | Some ip => ret (Some ip)
  | None =>
      match first_non_loopback ip_list with
      | Some ip => ret (Some ip)
      | None => ret None
      end
  end.

Definition get_best_ip (net : Network) : M string :=
  r <- try_pass (attempt_connect net) ;;
  match r with
  | Some ip => ret ip
  | None =>
      r <- try_pass (attempt_interfaces net) ;;
      match r with
      | Some ip => ret ip
      | None => ret LOOPBACK
      end
  end.

Definition LF : byte := x0a.
Definition NUL : byte := x00.

(** Body of the [try] under "Try text parsing". *)
Definition parse_text (content : list byte) : M (option Z) :=
  line <- index0 (bytes_split LF content) ;;
  text_chunk <- index0 (bytes_split NUL line) ;;
  port_str <- decode_ascii text_chunk ;;
  if isdigit port_str
  then port <- int port_str ;; ret (Some port)
  else ret None.

(** Body of the [try] under "Try binary parsing". *)
Definition parse_binary (content : list byte) : M (option Z) :=
  port <- struct_unpack_H (firstn 2 content) ;;
  if (1024 <=? port) && (port <=? 65535) then ret (Some port) else ret None.

Definition get_uxplay_port (w : World) : M (option Z) :=
  match ble_file w with
  | None =>
      _ <- print ("Error: " ++ BLE_FILE_PATH w ++ " not found. Run UxPlay first.") ;;
      ret None
  | Some file =>
      content <- call file ;;
      r <- try_pass (parse_text content) ;;
      match r with
      | Some port => ret (Some port)
      | None =>
          r <- (if 2 <=? Z.of_nat (List.length content)
                then try_pass (parse_binary content)
                else ret None) ;;
          match r with
          | Some port => ret (Some port)
          | None =>
              _ <- print "Error: Could not parse port." ;;
              ret None
          end
      end
  end.

(** [not port] for [port] that is [None] or an integer. *)
Definition not_port (port : option Z) : bool :=
  match port with
  | None => true
  | Some p => p =? 0
  end.

(** Lines 101 to 107 of the script: the manufacturer data for an address
    text and a port. *)
Definition assemble (ip_str : string) (port : Z) : M (list byte) :=
  company_id <- struct_pack_H 0x004C ;;
  let prefix := [x09; x08] in
  let magic := [x13; x30] in
  ip_bytes <- Inet.socket_inet_aton ip_str ;;
  port_bytes <- struct_pack_H port ;;
  ret (company_id ++ prefix ++ magic ++ ip_bytes ++ port_bytes).

Definition startAdvertising_ (name : string) (payload : list byte) : M unit :=
  ([StartAdvertising name payload], Ret tt).

Definition start_advertising (w : World) : M unit :=
  port <- get_uxplay_port w ;;
  match port with
  | Some p =>
      if not_port port then
        _ <- print "Failed to get port. Exiting." ;; sys_exit 1
      else
        ip_str <- get_best_ip (network w) ;;
        _ <- print ("Broadcasting: UxPlay @ " ++ ip_str ++ ":" ++ str_of_int p) ;;
        full_payload <- assemble ip_str p ;;
        _ <- startAdvertising_ "UxPlay" full_payload ;;
        print "Beacon active. (Ctrl+C to stop)"
  | None =>
      _ <- print "Failed to get port. Exiting." ;; sys_exit 1
  end.

End Beacon.

(* ================================================================= *)
(** ** Notions of the specification *)

Module Spec.
Import Py.

(** *** Address text *)

(** The decimal numeral of an octet, as [inet_ntoa] writes it: no sign, no
    superfluous leading zero. *)
Definition octet_text (n : nat) : string :=
  NilZero.string_of_uint (Nat.to_uint n).

Definition dotted_quad (a b c d : nat) : string :=
  (octet_text a ++ "." ++ octet_text b ++ "." ++ octet_text c ++ "."
   ++ octet_text d)%string.

(** The components of a text between its dots. *)
Fixpoint split_dots (s : string) : list string :=
  match s with
  | EmptyString => [EmptyString]
  | String c s' =>
      if Ascii.eqb c "." then EmptyString :: split_dots s'
      else match split_dots s' with
           | p :: ps => String c p :: ps
           | [] => [String c EmptyString]
           end
  end.

Definition is_octet_text (p : string) : bool :=
  existsb (fun n => String.eqb p (octet_text n)) (seq 0 256).

(** A well-formed dotted quad: four decimal octets, each the numeral of a
    number in 0..255, separated by dots. *)
Definition well_formed_dotted_quad (s : string) : bool :=
  match split_dots s with
  | [a; b; c; d] =>
      is_octet_text a && is_octet_text b && is_octet_text c && is_octet_text d
  | _ => false
  end.

(** Whether the text begins with a decimal digit. *)
Definition leading_digit (s : string) : bool :=
  match s with
  | EmptyString => false
  | String c _ => is_decimal_char c
  end.

(** *** Port file *)

(** The bytes before the first occurrence of [sep]. *)
Fixpoint take_until (sep : byte) (content : list byte) : list byte :=
  match content with
  | [] => []
  | b :: rest => if Byte.eqb b sep then [] else b :: take_until sep rest
  end.

(** "Bytes up to the first newline, then up to the first null byte within
    that slice". *)
Definition first_line (content : list byte) : list byte :=
  take_until x00 (take_until x0a content).

Definition is_digit_byte (b : byte) : bool :=
  (48 <=? byte_val b) && (byte_val b <=? 57).

(** A non-empty run of ASCII decimal digits. *)
Definition is_digit_line (chunk : list byte) : bool :=
  negb (Nat.eqb (List.length chunk) 0) && forallb is_digit_byte chunk.

(** The integer a run of digit bytes denotes, most significant first. *)
Fixpoint decimal_value (chunk : list byte) : Z :=
  match chunk with
  | [] => 0
  | b :: rest =>
      (byte_val b - 48) * 10 ^ Z.of_nat (List.length rest) + decimal_value rest
  end.

(** A run of digits that [int] converts: at most 4300 of them. *)
Definition within_digit_cap (chunk : list byte) : bool :=
  Z.of_nat (List.length chunk) <=? INT_MAX_STR_DIGITS.

(** The strategies of section 4.1, each yielding a value or nothing.  The
    text strategy yields the value of the first line when the line is a
    non-empty run of digits that [int] converts. *)
Definition text_strategy (content : list byte) : option Z :=
  if is_digit_line (first_line content)
     && within_digit_cap (first_line content)
  then Some (decimal_value (first_line content))
  else None.

Definition binary_strategy (content : list byte) : option Z :=
  match content with
  | hi :: lo :: _ =>
      let v := 256 * byte_val hi + byte_val lo in
      if (1024 <=? v) && (v <=? 65535) then Some v else None
  | _ => None
  end.

(** *** Address selection *)

Import Beacon.

(** Probe A gave nothing: a call failed, or the bound address is the
    loopback address. *)
Definition route_probe_yields_nothing (net : Network) : Prop :=
  (exists e, socket_socket net = inl e)
  \/ (exists e, socket_connect net = inl e)
  \/ (exists e, socket_getsockname net = inl e)
  \/ (exists e, socket_close net = inl e)
  \/ socket_getsockname net = inr LOOPBACK.

(** The addresses Probe B enumerated, when both of its calls answered. *)
Definition enumerated (net : Network) (ip_list : list string) : Prop :=
  exists hostname,
    socket_gethostname net = inr hostname
    /\ socket_gethostbyname_ex net hostname = inr ip_list.

(** Probe B gave nothing: a call failed, or no enumerated address differs
    from the loopback address. *)
Definition interface_probe_yields_nothing (net : Network) : Prop :=
  (exists e, socket_gethostname net = inl e)
  \/ (exists hostname e,
        socket_gethostname net = inr hostname
        /\ socket_gethostbyname_ex net hostname = inl e)
  \/ (exists ip_list,
        enumerated net ip_list /\ Forall (fun ip => ip = LOOPBACK) ip_list).

(** The textual test of the first enumeration loop. *)
Definition has_lan_prefix (ip : string) : bool :=
  String.prefix "192.168." ip || String.prefix "10." ip
  || String.prefix "172." ip.

(** *** Traces *)

(** A trace that holds console lines only. *)
Definition prints_only (t : list event) : Prop :=
  Forall (fun ev => exists line, ev = Print line) t.

End Spec.

(* ================================================================= *)
(** ** Sample surroundings *)

Module Sample.
Import Py Beacon.

(** A host with no route to 8.8.8.8 ([connect] fails) whose name resolves
    to the given addresses. *)
Definition offline (ip_list : list string) : Network :=
  {| socket_socket := inr tt;
     socket_connect := inl OSError;
     socket_getsockname := inr "0.0.0.0"%string;
     socket_close := inr tt;
     socket_gethostname := inr "host.local"%string;
     socket_gethostbyname_ex := fun _ => inr ip_list |}.

(** A port file whose first line is 4300 zeros and a seven. *)
Definition long_digit_line : list byte := repeat x30 4300 ++ [x37; x0a].

(** A run on such a host with the given port file. *)
Definition run_with (file : option (exn + list byte)) : World :=
  {| BLE_FILE_PATH := "/Users/user/.uxplay.ble";
     ble_file := file;
     network := offline ["192.168.1.42"%string] |}.

End Sample.

(* ================================================================= *)
(** ** The delegate callback *)

Module Delegate.
Import Py Beacon.

(** The states a [CBPeripheralManager] reports through [manager.state()]. *)
Inductive CBManagerState : Type :=
| CBManagerStateUnknown
| CBManagerStateResetting
| CBManagerStateUnsupported
| CBManagerStateUnauthorized
| CBManagerStatePoweredOff
| CBManagerStatePoweredOn.

(** [manager.state() == CBManagerStatePoweredOn] *)
Definition is_powered_on (state : CBManagerState) : bool :=
  match state with
  | CBManagerStatePoweredOn => true
  | _ => false
  end.

(** [BeaconDelegate.peripheralManagerDidUpdateState_], for the state the
    manager reports at the time of the call. *)
Definition peripheralManagerDidUpdateState_
  (state : CBManagerState) (w : World) : M unit :=
  if is_powered_on state then start_advertising w else ret tt.

(** A host whose route probe reads back [ip] and whose name resolves to
    the given addresses. *)
Definition routed (ip : string) (ip_list : list string) : Network :=
  {| socket_socket := inr tt;
     socket_connect := inr tt;
     socket_getsockname := inr ip;
     socket_close := inr tt;
     socket_gethostname := inr "host.local"%string;
     socket_gethostbyname_ex := fun _ => inr ip_list |}.

End Delegate.

(* ================================================================= *)
(** ** Properties of the runtime fragment *)

Section Runtime.
Import Py.

Lemma bind_ret_l {A B} (a : A) (k : A -> M B) : bind (ret a) k = k a.
Proof. unfold bind, ret. destruct (k a). reflexivity. Qed.

Lemma byte_val_range (b : byte) : 0 <= byte_val b < 256.
Proof.
  unfold byte_val. pose proof (Byte.to_N_bounded b) as H. lia.
Qed.

Lemma byte_val_of_Z (z : Z) : 0 <= z < 256 -> byte_val (byte_of_Z z) = z.
Proof.
  intros Hz. unfold byte_val, byte_of_Z.
  destruct (Byte.of_N (Z.to_N z)) as [b|] eqn:E.
  - apply Byte.to_of_N in E. rewrite E. lia.
  - apply Byte.of_N_None_iff in E. lia.
Qed.

Lemma byte_of_Z_val (b : byte) : byte_of_Z (byte_val b) = b.
Proof.
  unfold byte_of_Z, byte_val. rewrite N2Z.id, Byte.of_to_N. reflexivity.
Qed.

Lemma struct_pack_H_ok (v : Z) :
  0 <= v <= 65535 ->
  struct_pack_H v = ret [byte_of_Z (v / 256); byte_of_Z (v mod 256)].
Proof.
  intros Hv. unfold struct_pack_H.
  replace ((0 <=? v) && (v <=? 65535)) with true; [reflexivity|].
  symmetry. apply andb_true_iff. split; apply Z.leb_le; lia.
Qed.

Lemma struct_pack_H_out_of_range (v : Z) :
  v < 0 \/ 65535 < v -> struct_pack_H v = raise StructError.
Proof.
  intros Hv. unfold struct_pack_H.
  replace ((0 <=? v) && (v <=? 65535)) with false; [reflexivity|].
  symmetry. apply andb_false_iff.
  destruct Hv; [left; apply Z.leb_gt | right; apply Z.leb_gt]; lia.
Qed.

End Runtime.

Section InetFacts.
Import Py Inet Spec.

Lemma land_low_high (n lo k : Z) :
  0 <= n -> 0 <= lo < 2 ^ n -> Z.land lo (Z.shiftl k n) = 0.
Proof.
  intros Hn Hlo. apply Z.bits_inj'. intros i Hi.
  rewrite Z.land_spec, Z.bits_0.
  destruct (Z.lt_ge_cases i n) as [Hlt|Hge].
  - rewrite (Z.shiftl_spec_low k n i Hlt). apply andb_false_r.
  - rewrite <- (Z.mod_small lo (2 ^ n)) by lia.
    rewrite Z.mod_pow2_bits_high by lia. reflexivity.
Qed.

Lemma lor_low_high (n lo k : Z) :
  0 <= n -> 0 <= lo < 2 ^ n -> Z.lor lo (k * 2 ^ n) = lo + k * 2 ^ n.
Proof.
  intros Hn Hlo.
  pose proof (Z.add_lor_land lo (k * 2 ^ n)) as A.
  rewrite <- (Z.shiftl_mul_pow2 k n) in A at 2 by lia.
  rewrite land_low_high in A by lia. lia.
Qed.

Lemma octets_addr (a b c d : Z) :
  0 <= a < 256 -> 0 <= b < 256 -> 0 <= c < 256 -> 0 <= d < 256 ->
  Z.lor d (Z.lor (Z.lor (Z.shiftl a 24) (Z.shiftl b 16)) (Z.shiftl c 8))
  = a * 16777216 + b * 65536 + c * 256 + d.
Proof.
  intros Ha Hb Hc Hd.
  rewrite !Z.shiftl_mul_pow2 by lia.
  pose proof (lor_low_high 24 (b * 2 ^ 16) a) as H24.
  pose proof (lor_low_high 16 (c * 2 ^ 8) (b + a * 2 ^ 8)) as H16.
  pose proof (lor_low_high 8 d (c + (b + a * 2 ^ 8) * 2 ^ 8)) as H8.
  change (2 ^ 24) with 16777216 in *. change (2 ^ 16) with 65536 in *.
  change (2 ^ 8) with 256 in *.
  rewrite (Z.lor_comm (a * 16777216)), H24 by lia.
  replace (b * 65536 + a * 16777216) with ((b + a * 256) * 65536) by lia.
  rewrite (Z.lor_comm _ (c * 256)), H16 by lia.
  replace (c * 256 + (b + a * 256) * 65536)
    with ((c + (b + a * 256) * 256) * 256) by lia.
  rewrite H8 by lia. lia.
Qed.

Lemma div_mod_at (x m q r : Z) :
  0 <= r < m -> x = m * q + r -> x / m = q /\ x mod m = r.
Proof.
  intros Hr Hx. split; symmetry.
  - apply (Z.div_unique_pos x m q r); assumption.
  - apply (Z.mod_unique_pos x m q r); assumption.
Qed.

Lemma s_addr_bytes_octets (a b c d : Z) :
  0 <= a < 256 -> 0 <= b < 256 -> 0 <= c < 256 -> 0 <= d < 256 ->
  s_addr_bytes (a * 16777216 + b * 65536 + c * 256 + d)
  = [byte_of_Z a; byte_of_Z b; byte_of_Z c; byte_of_Z d].
Proof.
  intros Ha Hb Hc Hd. unfold s_addr_bytes.
  set (x := a * 16777216 + b * 65536 + c * 256 + d).
  rewrite !Z.shiftr_div_pow2 by lia.
  change (2 ^ 24) with 16777216. change (2 ^ 16) with 65536.
  change (2 ^ 8) with 256.
  destruct (div_mod_at x 16777216 a (b * 65536 + c * 256 + d)) as [E24 _];
    [lia | unfold x; lia |].
  destruct (div_mod_at x 65536 (a * 256 + b) (c * 256 + d)) as [E16 _];
    [lia | unfold x; lia |].
  destruct (div_mod_at x 256 (a * 65536 + b * 256 + c) d) as [E8 E0];
    [lia | unfold x; lia |].
  rewrite E24, E16, E8, E0.
  destruct (div_mod_at a 256 0 a) as [_ Ma]; [lia | lia |].
  destruct (div_mod_at (a * 256 + b) 256 a b) as [_ Mb]; [lia | lia |].
  destruct (div_mod_at (a * 65536 + b * 256 + c) 256 (a * 256 + b) c)
    as [_ Mc]; [lia | lia |].
  rewrite Ma, Mb, Mc. reflexivity.
Qed.


Lemma read_number_octet (n : nat) :
  (n < 256)%nat ->
  read_number (octet_text n) = Some (Z.of_nat n, true, EmptyString)
  /\ forall rest,
       read_number (octet_text n ++ String "." rest)
       = Some (Z.of_nat n, true, String "." rest).
Proof.
  intros Hn.
  assert (A : Forall (fun n =>
            read_number (octet_text n) = Some (Z.of_nat n, true, EmptyString)
            /\ forall rest,
                 read_number (octet_text n ++ String "." rest)
                 = Some (Z.of_nat n, true, String "." rest)) (seq 0 256)).
  { cbv [seq]. repeat (constructor; [split; [reflexivity | intros rest; reflexivity] |]).
    constructor. }
  rewrite Forall_forall in A. apply A. apply in_seq. lia.
Qed.

Lemma octet_text_no_nul (n : nat) :
  (n < 256)%nat -> has_nul (octet_text n) = false.
Proof.
  intros Hn.
  assert (A : forallb (fun n => negb (has_nul (octet_text n))) (seq 0 256) = true)
    by (vm_compute; reflexivity).
  rewrite forallb_forall in A.
  apply negb_true_iff, A, in_seq. lia.
Qed.

Lemma has_nul_app (s t : string) :
  has_nul (s ++ t) = has_nul s || has_nul t.
Proof.
  induction s as [|c s IH]; simpl; [reflexivity|].
  rewrite IH. apply orb_assoc.
Qed.

Lemma is_octet_text_inv (p : string) :
  is_octet_text p = true -> exists n, (n < 256)%nat /\ p = octet_text n.
Proof.
  unfold is_octet_text. intros H.
  apply existsb_exists in H. destruct H as [n [Hin He]].
  apply in_seq in Hin. apply String.eqb_eq in He.
  exists n. split; [lia | exact He].
Qed.

Lemma split_dots_not_nil (s : string) : split_dots s <> [].
Proof.
  destruct s as [|c s]; simpl; [discriminate|].
  destruct (Ascii.eqb c "."); [discriminate|].
  destruct (split_dots s); discriminate.
Qed.

Lemma concat_split_dots (s : string) : String.concat "." (split_dots s) = s.
Proof.
  induction s as [|c s IH]; simpl; [reflexivity|].
  destruct (Ascii.eqb c ".") eqn:E.
  - apply Ascii.eqb_eq in E. subst c.
    pose proof (split_dots_not_nil s) as N.
    destruct (split_dots s) as [|p ps] eqn:S; [contradiction|].
    simpl in *. rewrite IH. reflexivity.
  - pose proof (split_dots_not_nil s) as N.
    destruct (split_dots s) as [|p ps] eqn:S; [contradiction|].
    simpl in *. destruct ps; simpl in *; rewrite <- IH; reflexivity.
Qed.

Lemma well_formed_dotted_quad_inv (s : string) :
  well_formed_dotted_quad s = true ->
  exists a b c d,
    ((a < 256)%nat /\ (b < 256)%nat /\ (c < 256)%nat /\ (d < 256)%nat)
    /\ s = dotted_quad a b c d.
Proof.
  unfold well_formed_dotted_quad. intros H.
  pose proof (concat_split_dots s) as J.
  destruct (split_dots s) as [|pa [|pb [|pc [|pd [|? ?]]]]]; try discriminate.
  apply andb_true_iff in H. destruct H as [H Hd].
  apply andb_true_iff in H. destruct H as [H Hc].
  apply andb_true_iff in H. destruct H as [Ha Hb].
  apply is_octet_text_inv in Ha, Hb, Hc, Hd.
  destruct Ha as [a [La Ea]]. destruct Hb as [b [Lb Eb]].
  destruct Hc as [c [Lc Ec]]. destruct Hd as [d [Ld Ed]].
  exists a, b, c, d. split; [repeat split; assumption|].
  subst. reflexivity.
Qed.

Lemma inet_aton_dotted_quad (a b c d : nat) :
  (a < 256)%nat -> (b < 256)%nat -> (c < 256)%nat -> (d < 256)%nat ->
  socket_inet_aton (dotted_quad a b c d)
  = ret [byte_of_Z (Z.of_nat a); byte_of_Z (Z.of_nat b);
         byte_of_Z (Z.of_nat c); byte_of_Z (Z.of_nat d)].
Proof.
  intros Ha Hb Hc Hd. unfold socket_inet_aton, dotted_quad.
  rewrite !has_nul_app, !octet_text_no_nul by assumption. simpl orb. cbv iota.
  destruct (read_number_octet a Ha) as [_ Ra].
  destruct (read_number_octet b Hb) as [_ Rb].
  destruct (read_number_octet c Hc) as [_ Rc].
  destruct (read_number_octet d Hd) as [Rd _].
  assert (G : forall n, (n < 256)%nat -> (Z.of_nat n >? 255) = false)
    by (intros n Hn; rewrite Z.gtb_ltb; apply Z.ltb_ge; lia).
  unfold inet_aton.
  change ("." ++ ?x)%string with (String "." x).
  simpl collect_parts.
  rewrite Ra, (G a Ha). simpl collect_parts.
  rewrite Rb, (G b Hb). simpl collect_parts.
  rewrite Rc, (G c Hc). simpl collect_parts.
  rewrite Rd. unfold finish. simpl negb. cbv iota.
  rewrite (G d Hd).
  rewrite octets_addr, s_addr_bytes_octets by lia. reflexivity.
Qed.


Lemma inet_aton_two_parts (a b : nat) :
  (a < 256)%nat -> (b < 256)%nat ->
  socket_inet_aton (octet_text a ++ "." ++ octet_text b)
  = ret [byte_of_Z (Z.of_nat a); x00; x00; byte_of_Z (Z.of_nat b)].
Proof.
  intros Ha Hb. unfold socket_inet_aton.
  rewrite !has_nul_app, !octet_text_no_nul by assumption. simpl orb. cbv iota.
  destruct (read_number_octet a Ha) as [_ Ra].
  destruct (read_number_octet b Hb) as [Rb _].
  unfold inet_aton.
  change ("." ++ ?x)%string with (String "." x).
  simpl collect_parts.
  rewrite Ra. replace (Z.of_nat a >? 255) with false
    by (symmetry; rewrite Z.gtb_ltb; apply Z.ltb_ge; lia).
  simpl collect_parts. rewrite Rb. unfold finish. simpl negb. cbv iota.
  replace (Z.of_nat b >? 16777215) with false
    by (symmetry; rewrite Z.gtb_ltb; apply Z.ltb_ge; lia).
  rewrite Z.shiftl_mul_pow2 by lia.
  rewrite (lor_low_high 24 (Z.of_nat b) (Z.of_nat a)) by
    (change (2 ^ 24) with 16777216; lia).
  change (2 ^ 24) with 16777216.
  replace (Z.of_nat b + Z.of_nat a * 16777216)
    with (Z.of_nat a * 16777216 + 0 * 65536 + 0 * 256 + Z.of_nat b) by lia.
  rewrite s_addr_bytes_octets by lia. reflexivity.
Qed.

Lemma inet_aton_needs_leading_digit (s : string) :
  leading_digit s = false -> inet_aton s = None.
Proof.
  intros H. unfold inet_aton. simpl collect_parts.
  destruct s as [|c s]; [reflexivity|].
  simpl in H. unfold read_number.
  change (c_isdigit c) with (is_decimal_char c). rewrite H. reflexivity.
Qed.

End InetFacts.

(* ================================================================= *)
(** ** The advertisement payload *)

Section Payload.
Import Py Inet Beacon Spec.

Lemma assemble_unfold (ip_str : string) (port : Z) :
  0 <= port <= 65535 ->
  assemble ip_str port
  = (ip_bytes <- socket_inet_aton ip_str ;;
     ret ([x00; x4c] ++ [x09; x08] ++ [x13; x30] ++ ip_bytes
          ++ [byte_of_Z (port / 256); byte_of_Z (port mod 256)])).
Proof.
  intros Hp. unfold assemble.
  rewrite (struct_pack_H_ok port Hp).
  destruct (socket_inet_aton ip_str) as [t [bs|e|c]]; simpl;
    rewrite ?app_nil_r; reflexivity.
Qed.

Lemma port_bytes_value (port : Z) :
  0 <= port <= 65535 ->
  256 * byte_val (byte_of_Z (port / 256)) + byte_val (byte_of_Z (port mod 256))
  = port.
Proof.
  intros Hp.
  assert (0 <= port / 256 < 256)
    by (split; [apply Z.div_pos | apply Z.div_lt_upper_bound]; lia).
  pose proof (Z.mod_pos_bound port 256 ltac:(lia)).
  rewrite !byte_val_of_Z by lia.
  pose proof (Z.div_mod port 256 ltac:(lia)). lia.
Qed.

(** C1, as the script behaves: for "192.168.1.42" and port 7000 the payload
    is the twelve bytes 00 4C 09 08 13 30 C0 A8 01 2A 1B 58.  The company
    identifier 0x004C is packed big-endian, high byte first. *)
Theorem assemble_example :
  assemble "192.168.1.42" 7000
  = ret [x00; x4c; x09; x08; x13; x30; xc0; xa8; x01; x2a; x1b; x58].
Proof. vm_compute. reflexivity. Qed.

(** C1, as stated, does not hold: the payload does not begin 4C 00. *)
Lemma assemble_example_not_4c_00 :
  result (assemble "192.168.1.42" 7000)
  <> Ret [x4c; x00; x09; x08; x13; x30; xc0; xa8; x01; x2a; x1b; x58].
Proof. vm_compute. discriminate. Qed.

(** C9: for a well-formed dotted quad and a port in [0, 65535] the assembly
    returns twelve bytes: the two bytes of the company identifier, the two
    prefix bytes, the two magic bytes, the four octets of the address in the
    order written, and the port, high byte first. *)
Theorem payload_layout (ip_str : string) (port : Z) :
  well_formed_dotted_quad ip_str = true ->
  0 <= port <= 65535 ->
  exists (a b c d : nat) (ip_bytes port_bytes payload : list byte),
    ip_str = dotted_quad a b c d
    /\ assemble ip_str port = ret payload
    /\ payload = [x00; x4c] ++ [x09; x08] ++ [x13; x30] ++ ip_bytes ++ port_bytes
    /\ List.length payload = 12%nat
    /\ map byte_val ip_bytes = map Z.of_nat [a; b; c; d]
    /\ (exists hi lo, port_bytes = [hi; lo]
                      /\ 256 * byte_val hi + byte_val lo = port).
Proof.
  intros Hwf Hp.
  destruct (well_formed_dotted_quad_inv ip_str Hwf)
    as [a [b [c [d [[Ha [Hb [Hc Hd]]] E]]]]].
  exists a, b, c, d.
  exists [byte_of_Z (Z.of_nat a); byte_of_Z (Z.of_nat b);
          byte_of_Z (Z.of_nat c); byte_of_Z (Z.of_nat d)].
  exists [byte_of_Z (port / 256); byte_of_Z (port mod 256)].
  eexists. split; [exact E|]. split.
  - rewrite (assemble_unfold ip_str port Hp), E.
    rewrite (inet_aton_dotted_quad a b c d Ha Hb Hc Hd). reflexivity.
  - split; [reflexivity|]. split; [reflexivity|]. split.
    + simpl. rewrite !byte_val_of_Z by lia. reflexivity.
    + eexists; eexists. split; [reflexivity|]. apply port_bytes_value, Hp.
Qed.

Lemma payload_layout_witness :
  well_formed_dotted_quad "10.0.0.7" = true /\ 0 <= 5000 <= 65535 /\
  exists (a b c d : nat) (ip_bytes port_bytes payload : list byte),
    "10.0.0.7" = dotted_quad a b c d
    /\ assemble "10.0.0.7" 5000 = ret payload
    /\ payload = [x00; x4c] ++ [x09; x08] ++ [x13; x30] ++ ip_bytes ++ port_bytes
    /\ List.length payload = 12%nat
    /\ map byte_val ip_bytes = map Z.of_nat [a; b; c; d]
    /\ (exists hi lo, port_bytes = [hi; lo]
                      /\ 256 * byte_val hi + byte_val lo = 5000).
Proof.
  split; [vm_compute; reflexivity|]. split; [lia|].
  apply (payload_layout "10.0.0.7" 5000); [vm_compute; reflexivity | lia].
Defined.

(** C4, as stated, does not hold: "127.1" has two components, it is not a
    dotted quad, and the assembly succeeds on it (as for 127.0.0.1). *)
Lemma assemble_accepts_abbreviated :
  well_formed_dotted_quad "127.1" = false
  /\ assemble "127.1" 7000
     = ret [x00; x4c; x09; x08; x13; x30; x7f; x00; x00; x01; x1b; x58].
Proof. split; vm_compute; reflexivity. Qed.

(** C4, amended: with a port in [0, 65535], the assembly fails with the
    address error ([OSError]) exactly when the text holds no null character
    and the C routine [inet_aton] rejects it.  Every well-formed dotted quad
    is accepted; a text that does not begin with a decimal digit is refused;
    an abbreviated text of two octets [a.b] is accepted and stands for
    [a.0.0.b]. *)
Theorem assemble_invalid_address (ip_str : string) (port : Z) :
  0 <= port <= 65535 ->
  (result (assemble ip_str port) = Raise OSError
   <-> has_nul ip_str = false /\ inet_aton ip_str = None)
  /\ (well_formed_dotted_quad ip_str = true ->
      exists payload, assemble ip_str port = ret payload)
  /\ (leading_digit ip_str = false ->
      assemble ip_str port
      = raise (if has_nul ip_str then ValueError else OSError))
  /\ (forall a b : nat,
        (a < 256)%nat -> (b < 256)%nat ->
        ip_str = (octet_text a ++ "." ++ octet_text b)%string ->
        assemble ip_str port
        = ret [x00; x4c; x09; x08; x13; x30;
               byte_of_Z (Z.of_nat a); x00; x00; byte_of_Z (Z.of_nat b);
               byte_of_Z (port / 256); byte_of_Z (port mod 256)]).
Proof.
  intros Hp. rewrite (assemble_unfold ip_str port Hp).
  split; [|split; [|split]].
  - unfold socket_inet_aton.
    destruct (has_nul ip_str); [simpl; split; [discriminate | intros [? _]; discriminate]|].
    destruct (inet_aton ip_str); simpl.
    + split; [discriminate | intros [_ ?]; discriminate].
    + split; [intros _; split; reflexivity | reflexivity].
  - intros Hwf.
    destruct (well_formed_dotted_quad_inv ip_str Hwf)
      as [a [b [c [d [[Ha [Hb [Hc Hd]]] E]]]]].
    rewrite E, (inet_aton_dotted_quad a b c d Ha Hb Hc Hd).
    eexists. reflexivity.
  - intros Hl. unfold socket_inet_aton.
    destruct (has_nul ip_str); [reflexivity|].
    rewrite (inet_aton_needs_leading_digit ip_str Hl). reflexivity.
  - intros a b Ha Hb E. rewrite E, (inet_aton_two_parts a b Ha Hb). reflexivity.
Qed.

Lemma assemble_invalid_address_witness :
  0 <= 7000 <= 65535 /\ assemble "not-an-ip" 7000 = raise OSError.
Proof.
  split; [lia|].
  destruct (assemble_invalid_address "not-an-ip" 7000) as [_ [_ [H _]]];
    [lia | exact (H eq_refl)].
Defined.

End Payload.

(* ================================================================= *)
(** ** Address selection *)

Section AddressSelection.
Import Py Beacon Spec.

Lemma first_prefixed_lan (ip_list : list string) (ip : string) :
  first_prefixed ip_list = Some ip ->
  exists pre post,
    ip_list = pre ++ ip :: post
    /\ has_lan_prefix ip = true
    /\ Forall (fun x => has_lan_prefix x = false) pre.
Proof.
  induction ip_list as [|x rest IH]; simpl; [discriminate|].
  unfold startswith.
  destruct (String.prefix "192.168." x) eqn:E1;
    [intros H; injection H as <-; exists [], rest; unfold has_lan_prefix;
     rewrite E1; auto|].
  destruct (String.prefix "10." x) eqn:E2;
    [intros H; injection H as <-; exists [], rest; unfold has_lan_prefix;
     rewrite E1, E2; auto|].
  destruct (String.prefix "172." x) eqn:E3;
    [intros H; injection H as <-; exists [], rest; unfold has_lan_prefix;
     rewrite E1, E2, E3; auto|].
  intros H. destruct (IH H) as [pre [post [E [L F]]]].
  exists (x :: pre), post. subst rest. split; [reflexivity|]. split; [exact L|].
  constructor; [|exact F]. unfold has_lan_prefix. rewrite E1, E2, E3. reflexivity.
Qed.

Lemma first_prefixed_at (pre post : list string) (ip : string) :
  Forall (fun x => has_lan_prefix x = false) pre ->
  has_lan_prefix ip = true ->
  first_prefixed (pre ++ ip :: post) = Some ip.
Proof.
  intros F L. induction F as [|x pre Hx F IH]; simpl; unfold startswith.
  - unfold has_lan_prefix in L.
    destruct (String.prefix "192.168." ip); [reflexivity|].
    destruct (String.prefix "10." ip); [reflexivity|].
    destruct (String.prefix "172." ip); [reflexivity | discriminate].
  - unfold has_lan_prefix in Hx.
    destruct (String.prefix "192.168." x); [discriminate|].
    destruct (String.prefix "10." x); [discriminate|].
    destruct (String.prefix "172." x); [discriminate|]. exact IH.
Qed.

Lemma first_prefixed_none (ip_list : list string) :
  Forall (fun x => has_lan_prefix x = false) ip_list ->
  first_prefixed ip_list = None.
Proof.
  intros F. induction F as [|x l Hx F IH]; simpl; [reflexivity|].
  unfold startswith. unfold has_lan_prefix in Hx.
  destruct (String.prefix "192.168." x); [discriminate|].
  destruct (String.prefix "10." x); [discriminate|].
  destruct (String.prefix "172." x); [discriminate|]. exact IH.
Qed.

Lemma first_non_loopback_at (pre post : list string) (ip : string) :
  Forall (fun x => x = LOOPBACK) pre ->
  ip <> LOOPBACK ->
  first_non_loopback (pre ++ ip :: post) = Some ip.
Proof.
  intros F N. induction F as [|x pre Hx F IH]; simpl.
  - apply String.eqb_neq in N. rewrite N. reflexivity.
  - subst x. rewrite String.eqb_refl. exact IH.
Qed.

Lemma first_non_loopback_in (ip_list : list string) (ip : string) :
  first_non_loopback ip_list = Some ip -> In ip ip_list /\ ip <> LOOPBACK.
Proof.
  induction ip_list as [|x rest IH]; simpl; [discriminate|].
  destruct (String.eqb x LOOPBACK) eqn:E; simpl.
  - intros H. destruct (IH H). auto.
  - intros H. injection H as <-. apply String.eqb_neq in E. auto.
Qed.

Lemma all_loopback_nothing (ip_list : list string) :
  Forall (fun ip => ip = LOOPBACK) ip_list ->
  first_prefixed ip_list = None /\ first_non_loopback ip_list = None.
Proof.
  intros F. induction F as [|x l Hx F [IH1 IH2]]; simpl; [auto|].
  subst x. split; [exact IH1 | exact IH2].
Qed.

(** The first [try] statement: it never raises and emits nothing; it yields
    an address exactly when all four calls answered and the bound address is
    not the loopback address. *)
Lemma try_connect (net : Network) :
  exists r,
    try_pass (attempt_connect net) = ret r
    /\ (forall ip, r = Some ip ->
                   socket_getsockname net = inr ip /\ ip <> LOOPBACK)
    /\ (r = None <-> route_probe_yields_nothing net).
Proof.
  unfold attempt_connect, route_probe_yields_nothing.
  destruct net as [s c g cl h hx]; simpl.
  destruct s as [e|[]]; simpl.
  { exists None. split; [reflexivity|]. split; [discriminate|].
    split; [intros _; left; eauto | reflexivity]. }
  destruct c as [e|[]]; simpl.
  { exists None. split; [reflexivity|]. split; [discriminate|].
    split; [intros _; right; left; eauto | reflexivity]. }
  destruct g as [e|ip]; simpl.
  { exists None. split; [reflexivity|]. split; [discriminate|].
    split; [intros _; right; right; left; eauto | reflexivity]. }
  destruct cl as [e|[]]; simpl.
  { exists None. split; [reflexivity|]. split; [discriminate|].
    split; [intros _; right; right; right; left; eauto | reflexivity]. }
  destruct (String.eqb ip LOOPBACK) eqn:E; simpl.
  - apply String.eqb_eq in E. subst ip.
    exists None. split; [reflexivity|]. split; [discriminate|].
    split; [intros _; do 4 right; reflexivity | reflexivity].
  - apply String.eqb_neq in E.
    exists (Some ip). split; [reflexivity|]. split.
    + intros ? H. injection H as <-. auto.
    + split; [discriminate|].
      intros [[? H]|[[? H]|[[? H]|[[? H]|H]]]]; try discriminate.
      injection H as ->. contradiction.
Qed.

(** The second [try] statement. *)
Lemma try_interfaces (net : Network) :
  exists r,
    try_pass (attempt_interfaces net) = ret r
    /\ (forall ip_list,
          enumerated net ip_list ->
          r = match first_prefixed ip_list with
              | Some ip => Some ip
              | None => first_non_loopback ip_list
              end)
    /\ ((forall ip_list, ~ enumerated net ip_list) -> r = None).
Proof.
  unfold attempt_interfaces, enumerated.
  destruct net as [s c g cl h hx]; simpl.
  destruct h as [e|hostname]; simpl.
  { exists None. split; [reflexivity|]. split; [|reflexivity].
    intros l [? [H _]]. discriminate. }
  destruct (hx hostname) as [e|ip_list] eqn:E; simpl.
  { exists None. split; [reflexivity|]. split; [|reflexivity].
    intros l [? [H1 H2]]. injection H1 as <-. congruence. }
  exists (match first_prefixed ip_list with
          | Some ip => Some ip
          | None => first_non_loopback ip_list
          end).
  split.
  - destruct (first_prefixed ip_list); [reflexivity|].
    destruct (first_non_loopback ip_list); reflexivity.
  - split.
    + intros l [? [H1 H2]]. injection H1 as <-.
      rewrite E in H2. injection H2 as <-. reflexivity.
    + intros H. exfalso. apply (H ip_list). eauto.
Qed.

Lemma get_best_ip_cases (net : Network) :
  exists ra rb,
    try_pass (attempt_connect net) = ret ra
    /\ try_pass (attempt_interfaces net) = ret rb
    /\ get_best_ip net
       = ret (match ra with
              | Some ip => ip
              | None => match rb with Some ip => ip | None => LOOPBACK end
              end).
Proof.
  destruct (try_connect net) as [ra [Ea _]].
  destruct (try_interfaces net) as [rb [Eb _]].
  exists ra, rb. split; [exact Ea|]. split; [exact Eb|].
  unfold get_best_ip. rewrite Ea. simpl.
  destruct ra as [ip|]; [reflexivity|].
  rewrite Eb. simpl. destruct rb; reflexivity.
Qed.

(** C8: address selection always returns: whatever the network stack
    answers, [get_best_ip] ends with an address, raises nothing and emits
    nothing.  The address is the loopback address, the address the route
    probe read back, or one of the enumerated addresses, so it is a dotted
    quad whenever the stack reports dotted quads.  When both probes yield
    nothing it is exactly "127.0.0.1". *)
Theorem get_best_ip_total (net : Network) :
  exists ip,
    get_best_ip net = ret ip
    /\ (ip = "127.0.0.1"%string
        \/ socket_getsockname net = inr ip
        \/ exists ip_list, enumerated net ip_list /\ In ip ip_list)
    /\ ((forall a, socket_getsockname net = inr a ->
                   well_formed_dotted_quad a = true) ->
        (forall ip_list, enumerated net ip_list ->
                         Forall (fun a => well_formed_dotted_quad a = true) ip_list) ->
        well_formed_dotted_quad ip = true)
    /\ (route_probe_yields_nothing net ->
        interface_probe_yields_nothing net ->
        ip = "127.0.0.1"%string).
Proof.
  destruct (get_best_ip_cases net) as [ra [rb [Ea [Eb E]]]].
  destruct (try_connect net) as [ra' [Ea' [Sa Na]]].
  destruct (try_interfaces net) as [rb' [Eb' [Sb Nb]]].
  rewrite Ea in Ea'. injection Ea' as <-.
  rewrite Eb in Eb'. injection Eb' as <-.
  eexists. split; [exact E|].
  assert (Src :
    (match ra with
     | Some ip => ip
     | None => match rb with Some ip => ip | None => LOOPBACK end
     end) = LOOPBACK
    \/ socket_getsockname net
       = inr (match ra with
              | Some ip => ip
              | None => match rb with Some ip => ip | None => LOOPBACK end
              end)
    \/ exists ip_list,
         enumerated net ip_list
         /\ In (match ra with
                | Some ip => ip
                | None => match rb with Some ip => ip | None => LOOPBACK end
                end) ip_list).
  { destruct ra as [ip|]; [right; left; apply Sa; reflexivity|].
    destruct rb as [ip|]; [|left; reflexivity].
    right; right.
    destruct (socket_gethostname net) as [e|hostname] eqn:Eh.
    { assert (X : Some ip = None); [|discriminate].
      apply Nb. intros l [? [H _]]. rewrite Eh in H. discriminate. }
    destruct (socket_gethostbyname_ex net hostname) as [e|ip_list] eqn:El.
    { assert (X : Some ip = None); [|discriminate].
      apply Nb. intros l [h' [H1 H2]]. rewrite Eh in H1.
      injection H1 as <-. rewrite El in H2. discriminate. }
    exists ip_list. split; [exists hostname; auto|].
    assert (En : enumerated net ip_list) by (exists hostname; auto).
    specialize (Sb ip_list En).
    destruct (first_prefixed ip_list) as [q|] eqn:Ef.
    - injection Sb as ->.
      destruct (first_prefixed_lan _ _ Ef) as [pre [post [-> _]]].
      apply in_or_app. right. left. reflexivity.
    - symmetry in Sb. apply first_non_loopback_in in Sb. apply Sb. }
  split; [exact Src|]. split.
  - intros Wa Wl. destruct Src as [-> | [H | [l [En Hin]]]].
    + vm_compute. reflexivity.
    + apply Wa, H.
    + specialize (Wl l En). rewrite Forall_forall in Wl. apply Wl, Hin.
  - intros Ra Rb. apply Na in Ra. subst ra.
    destruct Rb as [[e He] | [[h [e [Hh He]]] | [l [En Fl]]]].
    + rewrite Nb; [reflexivity|]. intros l [? [H _]]. congruence.
    + rewrite Nb; [reflexivity|]. intros l [h' [H1 H2]].
      rewrite Hh in H1. injection H1 as <-. congruence.
    + rewrite (Sb l En). destruct (all_loopback_nothing l Fl) as [-> ->].
      reflexivity.
Qed.

Lemma get_best_ip_total_witness :
  route_probe_yields_nothing (Sample.offline ["127.0.0.1"%string])
  /\ interface_probe_yields_nothing (Sample.offline ["127.0.0.1"%string])
  /\ get_best_ip (Sample.offline ["127.0.0.1"%string]) = ret "127.0.0.1"%string.
Proof.
  assert (Ra : route_probe_yields_nothing (Sample.offline ["127.0.0.1"%string]))
    by (right; left; exists OSError; reflexivity).
  assert (Rb : interface_probe_yields_nothing (Sample.offline ["127.0.0.1"%string])).
  { right; right. exists ["127.0.0.1"%string]. split.
    - exists "host.local"%string. split; reflexivity.
    - repeat constructor. }
  split; [exact Ra|]. split; [exact Rb|].
  destruct (get_best_ip_total (Sample.offline ["127.0.0.1"%string]))
    as [ip [E [_ [_ L]]]].
  rewrite E, (L Ra Rb). reflexivity.
Defined.

(** C2, as stated, does not hold: with no outbound route and the addresses
    enumerated as 10.0.0.5 then 192.168.1.2, the 10.x address is returned;
    with the two in the other order the 192.168.x address is. *)
Lemma lan_order_decides :
  route_probe_yields_nothing (Sample.offline ["10.0.0.5"; "192.168.1.2"]%string)
  /\ enumerated (Sample.offline ["10.0.0.5"; "192.168.1.2"]%string)
                ["10.0.0.5"; "192.168.1.2"]%string
  /\ get_best_ip (Sample.offline ["10.0.0.5"; "192.168.1.2"]%string)
     = ret "10.0.0.5"%string
  /\ get_best_ip (Sample.offline ["192.168.1.2"; "10.0.0.5"]%string)
     = ret "192.168.1.2"%string.
Proof.
  split; [right; left; exists OSError; reflexivity|].
  split; [exists "host.local"%string; split; reflexivity|].
  split; vm_compute; reflexivity.
Qed.

(** C2, amended: when the route probe yields nothing and the enumeration
    answers, the result is the first enumerated address, in enumeration
    order, whose text starts with "192.168.", "10." or "172."; the three
    prefixes rank alike.  When no enumerated address has such a prefix, the
    result is the first one that differs from "127.0.0.1". *)
Theorem enumeration_order
  (net : Network) (pre post : list string) (ip : string) :
  route_probe_yields_nothing net ->
  enumerated net (pre ++ ip :: post) ->
  (has_lan_prefix ip = true ->
   Forall (fun x => has_lan_prefix x = false) pre ->
   get_best_ip net = ret ip)
  /\ (Forall (fun x => has_lan_prefix x = false) (pre ++ ip :: post) ->
      ip <> "127.0.0.1"%string ->
      Forall (fun x => x = "127.0.0.1"%string) pre ->
      get_best_ip net = ret ip).
Proof.
  intros Ra En.
  destruct (get_best_ip_cases net) as [ra [rb [Ea [Eb E]]]].
  destruct (try_connect net) as [ra' [Ea' [_ Na]]].
  destruct (try_interfaces net) as [rb' [Eb' [Sb _]]].
  rewrite Ea in Ea'. injection Ea' as <-.
  rewrite Eb in Eb'. injection Eb' as <-.
  apply Na in Ra. subst ra. specialize (Sb _ En). rewrite E, Sb. split.
  - intros L F. rewrite (first_prefixed_at pre post ip F L). reflexivity.
  - intros F N P. rewrite (first_prefixed_none _ F).
    rewrite (first_non_loopback_at pre post ip P N). reflexivity.
Qed.

Lemma enumeration_order_witness :
  route_probe_yields_nothing
    (Sample.offline (["169.254.7.7"; "172.20.1.1"; "192.168.1.2"])%string)
  /\ get_best_ip
       (Sample.offline (["169.254.7.7"; "172.20.1.1"; "192.168.1.2"])%string)
     = ret "172.20.1.1"%string.
Proof.
  assert (Ra : route_probe_yields_nothing
    (Sample.offline (["169.254.7.7"; "172.20.1.1"; "192.168.1.2"])%string))
    by (right; left; exists OSError; reflexivity).
  split; [exact Ra|].
  destruct (enumeration_order _ ["169.254.7.7"%string] ["192.168.1.2"%string]
              "172.20.1.1"%string Ra) as [H _].
  - exists "host.local"%string. split; reflexivity.
  - apply H; [reflexivity | repeat constructor].
Defined.

End AddressSelection.

(* ================================================================= *)
(** ** Port resolution *)

Section PortResolution.
Import Py Beacon Spec.

Lemma index0_bytes_split (sep : byte) (content : list byte) :
  index0 (bytes_split sep content) = ret (take_until sep content).
Proof.
  induction content as [|b rest IH]; simpl; [reflexivity|].
  destruct (Byte.eqb b sep); [reflexivity|].
  destruct (bytes_split sep rest) as [|chunk chunks]; simpl in *.
  - discriminate.
  - injection IH as <-. reflexivity.
Qed.

Lemma char_code_ascii_of_byte (b : byte) :
  char_code (ascii_of_byte b) = byte_val b.
Proof. destruct b; reflexivity. Qed.

Lemma is_decimal_char_byte (b : byte) :
  is_decimal_char (ascii_of_byte b) = is_digit_byte b.
Proof.
  unfold is_decimal_char, is_digit_byte.
  rewrite char_code_ascii_of_byte. reflexivity.
Qed.

Lemma is_digit_byte_ascii (b : byte) :
  is_digit_byte b = true -> (byte_val b <? 128) = true.
Proof.
  unfold is_digit_byte. intros H. apply andb_true_iff in H.
  destruct H as [_ H]. apply Z.leb_le in H. apply Z.ltb_lt. lia.
Qed.

(** What [decode('ascii')] gives, against the digit test on the bytes. *)
Lemma decode_ascii_cases (chunk : list byte) :
  (exists s,
      decode_ascii chunk = ret s
      /\ all_decimal s = forallb is_digit_byte chunk
      /\ String.length s = List.length chunk
      /\ (forallb is_digit_byte chunk = true ->
          forall acc,
            int_acc acc s
            = acc * 10 ^ Z.of_nat (List.length chunk) + decimal_value chunk))
  \/ (decode_ascii chunk = raise UnicodeDecodeError
      /\ forallb is_digit_byte chunk = false).
Proof.
  induction chunk as [|b rest IH].
  - left. exists EmptyString. simpl. repeat split. intros _ acc. lia.
  - simpl decode_ascii. destruct (byte_val b <? 128) eqn:Eb.
    + destruct IH as [[s [Es [Ea [El Ei]]]] | [Er Ef]].
      * left. exists (String (ascii_of_byte b) s).
        rewrite Es. split; [reflexivity|].
        cbn [all_decimal forallb String.length List.length int_acc
             decimal_value].
        rewrite is_decimal_char_byte, Ea. split; [reflexivity|].
        split; [rewrite El; reflexivity|].
        intros H acc. apply andb_true_iff in H. destruct H as [_ H].
        rewrite (Ei H), char_code_ascii_of_byte.
        rewrite Nat2Z.inj_succ, Z.pow_succ_r by lia. ring.
      * right. rewrite Er. simpl. split; [reflexivity|].
        rewrite Ef. apply andb_false_r.
    + right. split; [reflexivity|]. simpl.
      destruct (is_digit_byte b) eqn:Ed; [|reflexivity].
      apply is_digit_byte_ascii in Ed. congruence.
Qed.

(** The first [try] statement computes the text strategy. *)
Lemma try_parse_text (content : list byte) :
  try_pass (parse_text content) = ret (text_strategy content).
Proof.
  unfold parse_text, text_strategy, first_line, LF, NUL.
  rewrite index0_bytes_split, bind_ret_l.
  rewrite index0_bytes_split, bind_ret_l.
  set (chunk := take_until x00 (take_until x0a content)).
  unfold is_digit_line, within_digit_cap.
  destruct (decode_ascii_cases chunk) as [[s [Es [Ea [El Ei]]]] | [Er Ef]].
  - rewrite Es, bind_ret_l.
    assert (Hd : isdigit s
                 = negb (Nat.eqb (List.length chunk) 0)
                   && forallb is_digit_byte chunk).
    { unfold isdigit. destruct s as [|c s]; destruct chunk as [|b rest];
        try discriminate; [reflexivity | exact Ea]. }
    rewrite Hd.
    destruct (negb (Nat.eqb (List.length chunk) 0)
              && forallb is_digit_byte chunk) eqn:F; [|reflexivity].
    apply andb_true_iff in F. destruct F as [_ F].
    rewrite andb_true_l. unfold int. rewrite El.
    destruct (Z.of_nat (List.length chunk) <=? INT_MAX_STR_DIGITS) eqn:C.
    + apply Z.leb_le in C.
      replace (INT_MAX_STR_DIGITS <? Z.of_nat (List.length chunk)) with false
        by (symmetry; apply Z.ltb_ge; exact C).
      rewrite bind_ret_l, (Ei F 0). reflexivity.
    + apply Z.leb_gt in C.
      replace (INT_MAX_STR_DIGITS <? Z.of_nat (List.length chunk)) with true
        by (symmetry; apply Z.ltb_lt; exact C).
      reflexivity.
  - rewrite Er, Ef, andb_false_r. reflexivity.
Qed.

(** When the text strategy yields a value. *)
Lemma text_strategy_some (content : list byte) :
  is_digit_line (first_line content) = true ->
  (List.length (first_line content) <= 4300)%nat ->
  text_strategy content = Some (decimal_value (first_line content)).
Proof.
  intros Hd Hc. unfold text_strategy, within_digit_cap, INT_MAX_STR_DIGITS.
  rewrite Hd.
  replace (Z.of_nat (List.length (first_line content)) <=? 4300) with true
    by (symmetry; apply Z.leb_le; lia).
  reflexivity.
Qed.

Lemma text_strategy_inv (content : list byte) (v : Z) :
  text_strategy content = Some v ->
  is_digit_line (first_line content) = true
  /\ (List.length (first_line content) <= 4300)%nat
  /\ v = decimal_value (first_line content).
Proof.
  unfold text_strategy, within_digit_cap, INT_MAX_STR_DIGITS.
  destruct (is_digit_line (first_line content)); [|discriminate].
  destruct (Z.of_nat (List.length (first_line content)) <=? 4300) eqn:C;
    [|discriminate].
  apply Z.leb_le in C. intros H. injection H as <-.
  split; [reflexivity|]. split; [lia | reflexivity].
Qed.

(** When it yields nothing: the first line is not a non-empty run of
    digits, or it is one of more than 4300 digits, which [int] refuses. *)
Lemma text_strategy_none (content : list byte) :
  text_strategy content = None
  <-> is_digit_line (first_line content) = false
      \/ (4300 < List.length (first_line content))%nat.
Proof.
  unfold text_strategy, within_digit_cap, INT_MAX_STR_DIGITS.
  destruct (is_digit_line (first_line content)).
  - destruct (Z.of_nat (List.length (first_line content)) <=? 4300) eqn:C.
    + apply Z.leb_le in C. split; [discriminate|].
      intros [H|H]; [discriminate | lia].
    + apply Z.leb_gt in C. split; [intros _; right; lia | reflexivity].
  - split; [intros _; left; reflexivity | reflexivity].
Qed.

(** The second [try] statement computes the binary strategy. *)
Lemma try_parse_binary (content : list byte) :
  (if 2 <=? Z.of_nat (List.length content)
   then try_pass (parse_binary content)
   else ret None)
  = ret (binary_strategy content).
Proof.
  destruct content as [|hi [|lo rest]]; try reflexivity.
  replace (2 <=? Z.of_nat (List.length (hi :: lo :: rest))) with true
    by (symmetry; apply Z.leb_le; simpl List.length; lia).
  unfold parse_binary, binary_strategy. cbn [firstn struct_unpack_H].
  set (v := 256 * byte_val hi + byte_val lo).
  cbn [bind ret]. destruct ((1024 <=? v) && (v <=? 65535)); reflexivity.
Qed.

(** [get_uxplay_port] on a readable file: the text strategy, then the
    binary strategy, then the error line. *)
Lemma get_uxplay_port_readable (w : World) (content : list byte) :
  ble_file w = Some (inr content) ->
  get_uxplay_port w
  = match text_strategy content with
    | Some port => ret (Some port)
    | None =>
        match binary_strategy content with
        | Some port => ret (Some port)
        | None => ([Print "Error: Could not parse port."], Ret None)
        end
    end.
Proof.
  intros Hf. unfold get_uxplay_port. rewrite Hf. simpl call.
  unfold bind at 1. unfold ret at 1.
  rewrite try_parse_text.
  destruct (text_strategy content) as [p|]; [reflexivity|].
  simpl. rewrite try_parse_binary.
  destruct (binary_strategy content) as [p|]; reflexivity.
Qed.

Lemma take_until_digits (sep : byte) (digits rest : list byte) :
  forallb is_digit_byte digits = true ->
  is_digit_byte sep = false ->
  take_until sep (digits ++ sep :: rest) = digits
  /\ take_until sep digits = digits.
Proof.
  intros Hd Hs. induction digits as [|b ds IH]; simpl.
  - rewrite (Byte.byte_dec_lb (eq_refl sep)). auto.
  - simpl in Hd. apply andb_true_iff in Hd. destruct Hd as [Hb Hd].
    destruct (Byte.eqb b sep) eqn:E.
    + apply Byte.byte_dec_bl in E. congruence.
    + destruct (IH Hd) as [-> ->]. auto.
Qed.

(** Whatever follows the first newline or null byte is not looked at. *)
Lemma first_line_digits (digits tail : list byte) (sep : byte) :
  forallb is_digit_byte digits = true ->
  sep = x0a \/ sep = x00 ->
  first_line (digits ++ sep :: tail) = digits /\ first_line digits = digits.
Proof.
  intros Hd Hs. unfold first_line.
  destruct (take_until_digits x0a digits tail Hd eq_refl) as [A1 A2].
  destruct (take_until_digits x00 digits tail Hd eq_refl) as [B1 B2].
  destruct Hs as [-> | ->].
  - rewrite A1, A2, B2. auto.
  - rewrite A2, B2. split; [|reflexivity].
    clear A1 A2 B1 B2. induction digits as [|b ds IH]; [reflexivity|].
    simpl in Hd. apply andb_true_iff in Hd. destruct Hd as [Hb Hd].
    simpl. destruct (Byte.eqb b x0a) eqn:E.
    + apply Byte.byte_dec_bl in E. subst b. discriminate.
    + simpl. destruct (Byte.eqb b x00) eqn:E0.
      * apply Byte.byte_dec_bl in E0. subst b. discriminate.
      * rewrite (IH Hd). reflexivity.
Qed.

Lemma decimal_value_nonneg (chunk : list byte) :
  forallb is_digit_byte chunk = true -> 0 <= decimal_value chunk.
Proof.
  induction chunk as [|b rest IH]; simpl; [lia|].
  intros H. apply andb_true_iff in H. destruct H as [Hb Hr].
  unfold is_digit_byte in Hb. apply andb_true_iff in Hb.
  destruct Hb as [Hb _]. apply Z.leb_le in Hb.
  specialize (IH Hr).
  assert (0 <= 10 ^ Z.of_nat (List.length rest)) by (apply Z.pow_nonneg; lia).
  nia.
Qed.

Lemma digit_byte_code (b : byte) :
  is_digit_byte b = true -> 48 <= byte_val b <= 57.
Proof.
  unfold is_digit_byte. intros H. apply andb_true_iff in H.
  destruct H as [H1 H2]. apply Z.leb_le in H1. apply Z.leb_le in H2. lia.
Qed.

(** The big-endian reading of two digit characters is always accepted by
    the binary strategy. *)
Lemma binary_of_two_digits (d0 d1 : byte) (rest : list byte) :
  is_digit_byte d0 = true ->
  is_digit_byte d1 = true ->
  binary_strategy (d0 :: d1 :: rest) = Some (256 * byte_val d0 + byte_val d1)
  /\ 12336 <= 256 * byte_val d0 + byte_val d1 <= 14649.
Proof.
  intros H0 H1. apply digit_byte_code in H0. apply digit_byte_code in H1.
  unfold binary_strategy. cbv zeta.
  set (v := 256 * byte_val d0 + byte_val d1).
  assert (R : 12336 <= v <= 14649) by (unfold v; lia).
  replace (1024 <=? v) with true by (symmetry; apply Z.leb_le; lia).
  replace (v <=? 65535) with true by (symmetry; apply Z.leb_le; lia).
  split; [reflexivity | exact R].
Qed.

Lemma decimal_value_bound (chunk : list byte) :
  forallb is_digit_byte chunk = true ->
  0 <= decimal_value chunk < 10 ^ Z.of_nat (List.length chunk).
Proof.
  induction chunk as [|b rest IH]; intros H.
  - simpl. lia.
  - cbn [forallb] in H. apply andb_true_iff in H. destruct H as [Hb Hr].
    apply digit_byte_code in Hb. specialize (IH Hr).
    cbn [decimal_value List.length].
    rewrite Nat2Z.inj_succ, Z.pow_succ_r by lia.
    set (p := 10 ^ Z.of_nat (List.length rest)) in *. nia.
Qed.

Lemma take_until_prefix (sep : byte) (content : list byte) :
  exists tail, content = take_until sep content ++ tail.
Proof.
  induction content as [|b rest [tail IH]]; simpl.
  - exists []. reflexivity.
  - destruct (Byte.eqb b sep).
    + exists (b :: rest). reflexivity.
    + exists tail. simpl. rewrite <- IH. reflexivity.
Qed.

(** The first line is the beginning of the file. *)
Lemma first_line_prefix (content : list byte) :
  exists tail, content = first_line content ++ tail.
Proof.
  unfold first_line.
  destruct (take_until_prefix x0a content) as [t1 E1].
  destruct (take_until_prefix x00 (take_until x0a content)) as [t2 E2].
  exists (t2 ++ t1). rewrite app_assoc, <- E2. exact E1.
Qed.

(** A digit line of two digits or more, and the file it begins. *)
Lemma digit_line_start (content : list byte) :
  is_digit_line (first_line content) = true ->
  (2 <= List.length (first_line content))%nat ->
  exists d0 d1 rest,
    content = d0 :: d1 :: rest
    /\ is_digit_byte d0 = true /\ is_digit_byte d1 = true.
Proof.
  intros Hd Hl. destruct (first_line_prefix content) as [tail E].
  unfold is_digit_line in Hd. apply andb_true_iff in Hd. destruct Hd as [_ Hd].
  destruct (first_line content) as [|d0 [|d1 line]];
    [simpl in Hl; lia | simpl in Hl; lia |].
  cbn [forallb] in Hd. apply andb_true_iff in Hd. destruct Hd as [H0 Hd].
  apply andb_true_iff in Hd. destruct Hd as [H1 _].
  exists d0, d1, (line ++ tail). rewrite E. auto.
Qed.

Lemma decimal_value_leading_zeros (n : nat) (chunk : list byte) :
  decimal_value (repeat x30 n ++ chunk) = decimal_value chunk.
Proof.
  induction n as [|n IH]; [reflexivity|].
  cbn [repeat app decimal_value]. rewrite IH.
  change (byte_val x30 - 48) with 0. rewrite Z.mul_0_l. reflexivity.
Qed.

(** C5, as stated, does not hold: for a first line of 4300 zeros and a
    seven, a run of digits that denotes 7, [int] raises, the exception is
    dropped and the binary strategy answers 12336, the reading of the first
    two zeros. *)
Lemma long_digit_line_reads_binary :
  is_digit_line (first_line Sample.long_digit_line) = true
  /\ decimal_value (first_line Sample.long_digit_line) = 7
  /\ get_uxplay_port (Sample.run_with (Some (inr Sample.long_digit_line)))
     = ret (Some 12336).
Proof.
  assert (E : first_line Sample.long_digit_line = repeat x30 4300 ++ [x37])
    by (vm_compute; reflexivity).
  split; [vm_compute; reflexivity|]. split.
  - rewrite E, decimal_value_leading_zeros. reflexivity.
  - vm_compute. reflexivity.
Qed.

(** C5, amended: when the first line of the file (the bytes before the
    first newline, cut at the first null byte) is a non-empty run of ASCII
    decimal digits, of at most 4300 digits, [get_uxplay_port] returns the
    integer the digits denote, with no range check, and prints nothing; the
    bytes after the line play no part.  With more than 4300 digits [int]
    raises, and the result is the big-endian reading of the first two
    digit characters. *)
Theorem text_port_exact (w : World) (content : list byte) :
  ble_file w = Some (inr content) ->
  is_digit_line (first_line content) = true ->
  ((List.length (first_line content) <= 4300)%nat ->
   get_uxplay_port w = ret (Some (decimal_value (first_line content))))
  /\ ((4300 < List.length (first_line content))%nat ->
      exists d0 d1 rest,
        content = d0 :: d1 :: rest
        /\ get_uxplay_port w = ret (Some (256 * byte_val d0 + byte_val d1))).
Proof.
  intros Hf Hd. rewrite (get_uxplay_port_readable w content Hf). split.
  - intros Hc. rewrite (text_strategy_some content Hd Hc). reflexivity.
  - intros Hc.
    destruct (digit_line_start content Hd ltac:(lia))
      as [d0 [d1 [rest [E [H0 H1]]]]].
    exists d0, d1, rest. split; [exact E|].
    assert (Ft : text_strategy content = None)
      by (apply text_strategy_none; right; exact Hc).
    rewrite Ft. subst content.
    destruct (binary_of_two_digits d0 d1 rest H0 H1) as [-> _]. reflexivity.
Qed.

Lemma text_port_exact_witness :
  is_digit_line (first_line [x37; x30; x30; x30; x30; x0a; xff; x00; x1f]) = true
  /\ (List.length (first_line [x37; x30; x30; x30; x30; x0a; xff; x00; x1f])
      <= 4300)%nat
  /\ get_uxplay_port
       (Sample.run_with (Some (inr [x37; x30; x30; x30; x30; x0a; xff; x00; x1f])))
     = ret (Some 70000).
Proof.
  split; [reflexivity|].
  assert (L : (List.length (first_line [x37; x30; x30; x30; x30; x0a; xff; x00; x1f])
               <= 4300)%nat) by (simpl; lia).
  split; [exact L|].
  destruct (text_port_exact
              (Sample.run_with (Some (inr [x37; x30; x30; x30; x30; x0a; xff; x00; x1f])))
              [x37; x30; x30; x30; x30; x0a; xff; x00; x1f] eq_refl eq_refl)
    as [H _].
  exact (H L).
Defined.

(** The same, with the tail made explicit: digits, then a newline or a
    null byte, then anything. *)
Lemma text_port_ignores_tail
  (w : World) (digits tail : list byte) (sep : byte) :
  is_digit_line digits = true ->
  (List.length digits <= 4300)%nat ->
  sep = x0a \/ sep = x00 ->
  ble_file w = Some (inr (digits ++ sep :: tail)) ->
  get_uxplay_port w = ret (Some (decimal_value digits)).
Proof.
  intros Hd Hc Hs Hf. rewrite (get_uxplay_port_readable w _ Hf).
  assert (Hall : forallb is_digit_byte digits = true).
  { unfold is_digit_line in Hd. apply andb_true_iff in Hd. apply Hd. }
  destruct (first_line_digits digits tail sep Hall Hs) as [E _].
  rewrite text_strategy_some; rewrite E; [reflexivity | exact Hd | exact Hc].
Qed.

Lemma text_strategy_nonneg (content : list byte) (v : Z) :
  text_strategy content = Some v -> 0 <= v.
Proof.
  intros H. destruct (text_strategy_inv content v H) as [E [_ ->]].
  unfold is_digit_line in E. apply andb_true_iff in E.
  apply decimal_value_nonneg, E.
Qed.

Lemma binary_strategy_range (content : list byte) (v : Z) :
  binary_strategy content = Some v ->
  1024 <= v <= 65535
  /\ exists hi lo rest,
       content = hi :: lo :: rest /\ v = 256 * byte_val hi + byte_val lo.
Proof.
  unfold binary_strategy.
  destruct content as [|hi [|lo rest]]; try discriminate.
  destruct ((1024 <=? 256 * byte_val hi + byte_val lo)
            && (256 * byte_val hi + byte_val lo <=? 65535)) eqn:E;
    [|discriminate].
  intros H. injection H as <-.
  apply andb_true_iff in E. destruct E as [E1 E2].
  apply Z.leb_le in E1. apply Z.leb_le in E2. split; [split; assumption|].
  exists hi, lo, rest. split; reflexivity.
Qed.

(** C3, as stated, does not hold: a first line "70000" resolves to 70000. *)
Lemma text_port_above_65535 :
  get_uxplay_port
    (Sample.run_with (Some (inr [x37; x30; x30; x30; x30; x0a])))
  = ret (Some 70000)
  /\ 65535 < 70000.
Proof. split; [vm_compute; reflexivity | lia]. Qed.

(** C3, amended: a port returned by [get_uxplay_port] is a non-negative
    integer below ten to the 4300.  It comes from a readable file, and it is
    either the value of a first line of at most 4300 digits, on which no
    range check is made, or, when the text strategy yields nothing, the
    value of the binary strategy, which lies in [1024, 65535]. *)
Theorem resolved_port_range (w : World) (t : list event) (port : Z) :
  get_uxplay_port w = (t, Ret (Some port)) ->
  0 <= port < 10 ^ 4300
  /\ exists content,
       ble_file w = Some (inr content)
       /\ ((is_digit_line (first_line content) = true
            /\ (List.length (first_line content) <= 4300)%nat
            /\ port = decimal_value (first_line content))
           \/ (text_strategy content = None
               /\ binary_strategy content = Some port
               /\ 1024 <= port <= 65535)).
Proof.
  intros H.
  destruct (ble_file w) as [[e|content]|] eqn:Hf.
  - unfold get_uxplay_port in H. rewrite Hf in H. discriminate.
  - rewrite (get_uxplay_port_readable w content Hf) in H.
    destruct (text_strategy content) as [v|] eqn:Et.
    + injection H as <- <-.
      destruct (text_strategy_inv content v Et) as [Hd [Hc Ev]].
      split; [|exists content; auto].
      assert (Hall : forallb is_digit_byte (first_line content) = true).
      { unfold is_digit_line in Hd. apply andb_true_iff in Hd. apply Hd. }
      pose proof (decimal_value_bound _ Hall) as B. rewrite <- Ev in B.
      split; [apply B|].
      apply (Z.lt_le_trans _ _ _ (proj2 B)).
      apply Z.pow_le_mono_r; lia.
    + destruct (binary_strategy content) as [v|] eqn:Eb; [|discriminate].
      injection H as <- <-.
      destruct (binary_strategy_range _ _ Eb) as [R _].
      split; [|exists content; auto].
      split; [lia|].
      apply (Z.lt_le_trans _ (10 ^ 5)); [change (10 ^ 5) with 100000; lia|].
      apply Z.pow_le_mono_r; lia.
  - unfold get_uxplay_port in H. rewrite Hf in H. discriminate.
Qed.

Lemma resolved_port_range_witness :
  get_uxplay_port (Sample.run_with (Some (inr [x1f; x90]))) = ret (Some 8080)
  /\ 0 <= 8080 < 10 ^ 4300.
Proof.
  split; [reflexivity|].
  apply (resolved_port_range (Sample.run_with (Some (inr [x1f; x90]))) [] 8080).
  reflexivity.
Defined.

(** C6: the strategies are tried in order and the first value wins.  When
    the text strategy yields a value, that value is returned whatever the
    first two bytes would read as.  When it yields nothing and the file has
    at least two bytes, the first two bytes are read as a big-endian 16 bit
    number, which is returned if and only if it is at least 1024 (it never
    exceeds 65535); below 1024 the parse error line is printed and nothing
    is returned.  The text strategy yields nothing when the first line is
    not a non-empty run of digits, and also when it is a run of more than
    4300 digits, which [int] refuses. *)
Theorem strategies_in_order (w : World) (content : list byte) :
  ble_file w = Some (inr content) ->
  (forall v, text_strategy content = Some v ->
             get_uxplay_port w = ret (Some v))
  /\ (text_strategy content = None ->
      forall hi lo rest,
        content = hi :: lo :: rest ->
        0 <= 256 * byte_val hi + byte_val lo <= 65535
        /\ (forall port,
              result (get_uxplay_port w) = Ret (Some port)
              <-> port = 256 * byte_val hi + byte_val lo /\ 1024 <= port)
        /\ (1024 <= 256 * byte_val hi + byte_val lo ->
            get_uxplay_port w = ret (Some (256 * byte_val hi + byte_val lo)))
        /\ (256 * byte_val hi + byte_val lo < 1024 ->
            get_uxplay_port w
            = ([Print "Error: Could not parse port."], Ret None)))
  /\ (text_strategy content = None
      <-> is_digit_line (first_line content) = false
          \/ (4300 < List.length (first_line content))%nat).
Proof.
  intros Hf. rewrite (get_uxplay_port_readable w content Hf).
  split; [|split; [|apply text_strategy_none]].
  - intros v ->. reflexivity.
  - intros -> hi lo rest ->.
    pose proof (byte_val_range hi) as Rh. pose proof (byte_val_range lo) as Rl.
    unfold binary_strategy. cbv zeta.
    set (v := 256 * byte_val hi + byte_val lo).
    assert (Rv : 0 <= v <= 65535) by (unfold v; lia).
    split; [exact Rv|].
    destruct (1024 <=? v) eqn:E1.
    + apply Z.leb_le in E1.
      replace (v <=? 65535) with true by (symmetry; apply Z.leb_le; lia).
      simpl. split; [|split].
      * intros port. split.
        -- intros H. injection H as <-. split; [reflexivity | exact E1].
        -- intros [-> _]. reflexivity.
      * reflexivity.
      * lia.
    + apply Z.leb_gt in E1. simpl. split; [|split].
      * intros port. split; [discriminate | intros [-> ?]; lia].
      * lia.
      * reflexivity.
Qed.

Lemma strategies_in_order_witness :
  text_strategy [x1f; x90] = None
  /\ get_uxplay_port (Sample.run_with (Some (inr [x1f; x90])))
     = ret (Some 8080)
  /\ text_strategy [x00; x50] = None
  /\ get_uxplay_port (Sample.run_with (Some (inr [x00; x50])))
     = ([Print "Error: Could not parse port."], Ret None).
Proof.
  split; [reflexivity|]. split.
  - destruct (strategies_in_order
                (Sample.run_with (Some (inr [x1f; x90]))) [x1f; x90] eq_refl)
      as [_ [H _]].
    destruct (H eq_refl x1f x90 [] eq_refl) as [_ [_ [G _]]].
    apply G. vm_compute. discriminate.
  - split; [reflexivity|].
    destruct (strategies_in_order
                (Sample.run_with (Some (inr [x00; x50]))) [x00; x50] eq_refl)
      as [_ [H _]].
    destruct (H eq_refl x00 x50 [] eq_refl) as [_ [_ [_ G]]].
    apply G. vm_compute. reflexivity.
Defined.

End PortResolution.

(* ================================================================= *)
(** ** Start of the advertisement *)

Section Startup.
Import Py Inet Beacon Spec.

Lemma get_uxplay_port_prints_only (w : World) :
  prints_only (trace (get_uxplay_port w)).
Proof.
  unfold prints_only.
  destruct (ble_file w) as [[e|content]|] eqn:Hf.
  - unfold get_uxplay_port. rewrite Hf. constructor.
  - rewrite (get_uxplay_port_readable w content Hf).
    destruct (text_strategy content); [constructor|].
    destruct (binary_strategy content); [constructor|].
    repeat constructor. eauto.
  - unfold get_uxplay_port. rewrite Hf. repeat constructor. eauto.
Qed.

Lemma prints_only_no_advertising
  (t : list event) (name : string) (payload : list byte) :
  prints_only t -> ~ In (StartAdvertising name payload) t.
Proof.
  intros P Hin. unfold prints_only in P. rewrite Forall_forall in P.
  destruct (P _ Hin) as [line H]. discriminate.
Qed.

(** The assembly emits nothing, and returns only for a port that fits
    sixteen bits. *)
Lemma assemble_shape (ip_str : string) (port : Z) :
  exists r,
    assemble ip_str port = ([], r)
    /\ forall payload,
         r = Ret payload ->
         0 <= port <= 65535
         /\ exists ip_bytes,
              List.length ip_bytes = 4%nat
              /\ payload = [x00; x4c; x09; x08; x13; x30] ++ ip_bytes
                           ++ [byte_of_Z (port / 256); byte_of_Z (port mod 256)].
Proof.
  destruct (Z_le_dec 0 port) as [L|L]; [destruct (Z_le_dec port 65535) as [U|U]|].
  - rewrite (assemble_unfold ip_str port (conj L U)). unfold socket_inet_aton.
    destruct (has_nul ip_str); [eexists; split; [reflexivity | discriminate]|].
    destruct (inet_aton ip_str) as [addr|];
      [|eexists; split; [reflexivity | discriminate]].
    eexists. split; [reflexivity|].
    intros payload H. injection H as <-. split; [lia|].
    exists (s_addr_bytes addr). split; reflexivity.
  - unfold assemble.
    rewrite (struct_pack_H_out_of_range port) by lia.
    unfold socket_inet_aton.
    destruct (has_nul ip_str); [eexists; split; [reflexivity | discriminate]|].
    destruct (inet_aton ip_str);
      eexists; (split; [reflexivity | discriminate]).
  - unfold assemble.
    rewrite (struct_pack_H_out_of_range port) by lia.
    unfold socket_inet_aton.
    destruct (has_nul ip_str); [eexists; split; [reflexivity | discriminate]|].
    destruct (inet_aton ip_str);
      eexists; (split; [reflexivity | discriminate]).
Qed.

(** [start_advertising] after a resolution that gave nothing. *)
Lemma start_advertising_unresolved (w : World) (t : list event) :
  get_uxplay_port w = (t, Ret None) ->
  start_advertising w
  = (t ++ [Print "Failed to get port. Exiting."], SysExit 1).
Proof. intros E. unfold start_advertising. rewrite E. reflexivity. Qed.

(** [start_advertising] after a resolution that gave a port. *)
Lemma start_advertising_resolved (w : World) (t : list event) (port : Z) :
  get_uxplay_port w = (t, Ret (Some port)) ->
  port <> 0 ->
  exists ip_str,
    get_best_ip (network w) = ret ip_str
    /\ ((exists payload,
           assemble ip_str port = ret payload
           /\ start_advertising w
              = (t ++ [Print ("Broadcasting: UxPlay @ " ++ ip_str ++ ":"
                              ++ str_of_int port);
                       StartAdvertising "UxPlay" payload;
                       Print "Beacon active. (Ctrl+C to stop)"],
                 Ret tt))
        \/ (exists e,
              assemble ip_str port = raise e
              /\ start_advertising w
                 = (t ++ [Print ("Broadcasting: UxPlay @ " ++ ip_str ++ ":"
                                 ++ str_of_int port)],
                    Raise e))).
Proof.
  intros E N.
  destruct (get_best_ip_cases (network w)) as [ra [rb [_ [_ Eip]]]].
  set (ip := match ra with
             | Some ip => ip
             | None => match rb with Some ip => ip | None => LOOPBACK end
             end) in Eip.
  exists ip. split; [exact Eip|].
  destruct (assemble_shape ip port) as [r [Ea _]].
  assert (Es : start_advertising w
               = let (t', r') :=
                   (_ <- print ("Broadcasting: UxPlay @ " ++ ip ++ ":"
                                ++ str_of_int port) ;;
                    full_payload <- assemble ip port ;;
                    _ <- startAdvertising_ "UxPlay" full_payload ;;
                    print "Beacon active. (Ctrl+C to stop)")
                 in (t ++ t', r')).
  { unfold start_advertising. rewrite E.
    cbn [bind not_port]. apply Z.eqb_neq in N.
    rewrite N, Eip, bind_ret_l. reflexivity. }
  rewrite Es, Ea. clear Es.
  destruct r as [payload|e|c].
  - left. exists payload. split; reflexivity.
  - right. exists e. split; reflexivity.
  - exfalso. revert Ea. unfold assemble, struct_pack_H, socket_inet_aton.
    destruct (has_nul ip); destruct (inet_aton ip);
      destruct ((0 <=? port) && (port <=? 65535)); discriminate.
Qed.

(** C7: a failed port resolution ends the start.  When the path does not
    exist, [get_uxplay_port] prints the "not found" line and returns nothing
    (FileMissing); when the file is read and neither strategy yields a
    value, it prints the parse error line and returns nothing
    (PortParseError).  In both cases [start_advertising] prints its failure
    line and leaves through [sys.exit(1)] without calling
    [startAdvertising_].  Whenever [startAdvertising_] is called, the port
    was resolved to a value in [1, 65535] and that value is what the last
    two bytes of the payload hold. *)
Theorem resolution_failure_is_terminal (w : World) :
  (ble_file w = None ->
   get_uxplay_port w
   = ([Print ("Error: " ++ BLE_FILE_PATH w ++ " not found. Run UxPlay first.")],
      Ret None)
   /\ start_advertising w
      = ([Print ("Error: " ++ BLE_FILE_PATH w ++ " not found. Run UxPlay first.");
          Print "Failed to get port. Exiting."],
         SysExit 1))
  /\ (forall content,
        ble_file w = Some (inr content) ->
        text_strategy content = None ->
        binary_strategy content = None ->
        get_uxplay_port w = ([Print "Error: Could not parse port."], Ret None)
        /\ start_advertising w
           = ([Print "Error: Could not parse port.";
               Print "Failed to get port. Exiting."],
              SysExit 1))
  /\ (forall t,
        get_uxplay_port w = (t, Ret None) ->
        result (start_advertising w) = SysExit 1
        /\ forall name payload,
             ~ In (StartAdvertising name payload) (trace (start_advertising w)))
  /\ (forall name payload,
        In (StartAdvertising name payload) (trace (start_advertising w)) ->
        exists port head,
          result (get_uxplay_port w) = Ret (Some port)
          /\ 1 <= port <= 65535
          /\ payload = head ++ [byte_of_Z (port / 256); byte_of_Z (port mod 256)]
          /\ List.length head = 10%nat).
Proof.
  split; [|split; [|split]].
  - intros Hf.
    assert (E : get_uxplay_port w
                = ([Print ("Error: " ++ BLE_FILE_PATH w
                           ++ " not found. Run UxPlay first.")], Ret None))
      by (unfold get_uxplay_port; rewrite Hf; reflexivity).
    split; [exact E|]. rewrite (start_advertising_unresolved w _ E). reflexivity.
  - intros content Hf Ht Hb.
    assert (E : get_uxplay_port w
                = ([Print "Error: Could not parse port."], Ret None))
      by (rewrite (get_uxplay_port_readable w content Hf), Ht, Hb; reflexivity).
    split; [exact E|]. rewrite (start_advertising_unresolved w _ E). reflexivity.
  - intros t E. rewrite (start_advertising_unresolved w t E).
    split; [reflexivity|]. intros name payload Hin. simpl in Hin.
    pose proof (get_uxplay_port_prints_only w) as P. rewrite E in P.
    apply in_app_or in Hin. destruct Hin as [Hin | [Hin | []]].
    + exact (prints_only_no_advertising t name payload P Hin).
    + discriminate.
  - intros name payload Hin.
    pose proof (get_uxplay_port_prints_only w) as P.
    destruct (get_uxplay_port w) as [t [[port|]|e|c]] eqn:E.
    + simpl in P. destruct (Z.eq_dec port 0) as [Z0|NZ].
      * exfalso. subst port. revert Hin.
        unfold start_advertising. rewrite E. simpl. intros Hin.
        apply in_app_or in Hin. destruct Hin as [Hin | [Hin | []]].
        -- exact (prints_only_no_advertising t name payload P Hin).
        -- discriminate.
      * destruct (start_advertising_resolved w t port E NZ)
          as [ip [_ [[pl [Ea Es]] | [e [Ea Es]]]]].
        -- rewrite Es in Hin. simpl in Hin.
           apply in_app_or in Hin.
           destruct Hin as [Hin | [Hin | [Hin | [Hin | []]]]].
           ++ exfalso. exact (prints_only_no_advertising t name payload P Hin).
           ++ discriminate.
           ++ injection Hin as _ <-.
              destruct (assemble_shape ip port) as [r [Ea' Hr]].
              rewrite Ea in Ea'. injection Ea' as <-.
              destruct (Hr pl eq_refl) as [R [ipb [Hl ->]]].
              exists port, ([x00; x4c; x09; x08; x13; x30] ++ ipb).
              split; [reflexivity|]. split; [lia|]. split.
              ** rewrite <- app_assoc. reflexivity.
              ** rewrite length_app, Hl. reflexivity.
           ++ discriminate.
        -- exfalso. rewrite Es in Hin. simpl in Hin.
           apply in_app_or in Hin. destruct Hin as [Hin | [Hin | []]].
           ++ exact (prints_only_no_advertising t name payload P Hin).
           ++ discriminate.
    + exfalso. rewrite (start_advertising_unresolved w t E) in Hin.
      simpl in Hin, P. apply in_app_or in Hin. destruct Hin as [Hin | [Hin | []]].
      * exact (prints_only_no_advertising t name payload P Hin).
      * discriminate.
    + exfalso. revert Hin. unfold start_advertising. rewrite E. simpl.
      exact (prints_only_no_advertising t name payload P).
    + exfalso. revert Hin. unfold start_advertising. rewrite E. simpl.
      exact (prints_only_no_advertising t name payload P).
Qed.

Lemma resolution_failure_is_terminal_witness :
  ble_file (Sample.run_with None) = None
  /\ start_advertising (Sample.run_with None)
     = ([Print "Error: /Users/user/.uxplay.ble not found. Run UxPlay first.";
         Print "Failed to get port. Exiting."],
        SysExit 1)
  /\ text_strategy [x00; x50] = None
  /\ binary_strategy [x00; x50] = None
  /\ start_advertising (Sample.run_with (Some (inr [x00; x50])))
     = ([Print "Error: Could not parse port.";
         Print "Failed to get port. Exiting."],
        SysExit 1).
Proof.
  split; [reflexivity|]. split.
  - destruct (resolution_failure_is_terminal (Sample.run_with None))
      as [H _].
    destruct (H eq_refl) as [_ G]. exact G.
  - split; [reflexivity|]. split; [reflexivity|].
    destruct (resolution_failure_is_terminal
                (Sample.run_with (Some (inr [x00; x50])))) as [_ [H _]].
    destruct (H [x00; x50] eq_refl eq_refl eq_refl) as [_ G]. exact G.
Defined.

(** C10: when the first line of the port file is the text "0", the
    resolution succeeds with the integer 0 and prints nothing, and
    [start_advertising] nevertheless prints its failure line and leaves
    through [sys.exit(1)], with no call of [startAdvertising_]. *)
Theorem zero_port_exits (w : World) (content : list byte) :
  ble_file w = Some (inr content) ->
  first_line content = [x30] ->
  get_uxplay_port w = ret (Some 0)
  /\ start_advertising w = ([Print "Failed to get port. Exiting."], SysExit 1).
Proof.
  intros Hf Hl.
  assert (E : get_uxplay_port w = ret (Some 0)).
  { rewrite (get_uxplay_port_readable w content Hf).
    unfold text_strategy. rewrite Hl. reflexivity. }
  split; [exact E|].
  unfold start_advertising. rewrite E. reflexivity.
Qed.

Lemma zero_port_exits_witness :
  first_line [x30; x0a] = [x30]
  /\ get_uxplay_port (Sample.run_with (Some (inr [x30; x0a]))) = ret (Some 0)
  /\ start_advertising (Sample.run_with (Some (inr [x30; x0a])))
     = ([Print "Failed to get port. Exiting."], SysExit 1).
Proof.
  split; [reflexivity|].
  apply (zero_port_exits (Sample.run_with (Some (inr [x30; x0a]))) [x30; x0a]);
    reflexivity.
Defined.

End Startup.

(* ================================================================= *)
(** ** Further properties of address selection *)

Section AddressSelectionMore.
Import Py Beacon Spec.

Lemma first_non_loopback_none (ip_list : list string) :
  first_non_loopback ip_list = None ->
  Forall (fun ip => ip = LOOPBACK) ip_list.
Proof.
  induction ip_list as [|x rest IH]; simpl; [constructor|].
  destruct (String.eqb x LOOPBACK) eqn:E; simpl; [|discriminate].
  intros H. apply String.eqb_eq in E. constructor; auto.
Qed.

Lemma interfaces_result_not_loopback (ip_list : list string) (ip : string) :
  match first_prefixed ip_list with
  | Some q => Some q
  | None => first_non_loopback ip_list
  end = Some ip ->
  ip <> LOOPBACK.
Proof.
  destruct (first_prefixed ip_list) as [q|] eqn:E.
  - intros H. injection H as ->.
    destruct (first_prefixed_lan _ _ E) as [_ [_ [_ [L _]]]].
    intros ->. vm_compute in L. discriminate.
  - intros H. apply first_non_loopback_in in H. apply H.
Qed.

(** X1: when the four calls of the route probe answer and the address read
    back is not "127.0.0.1", that address is the result, whatever the host
    name resolution would give or raise. *)
Theorem route_probe_wins (net : Network) (ip : string) :
  socket_socket net = inr tt ->
  socket_connect net = inr tt ->
  socket_getsockname net = inr ip ->
  socket_close net = inr tt ->
  ip <> "127.0.0.1"%string ->
  get_best_ip net = ret ip.
Proof.
  intros Hs Hc Hg Hcl Hn.
  unfold get_best_ip, attempt_connect.
  rewrite Hs, Hc, Hg, Hcl. simpl.
  apply String.eqb_neq in Hn. unfold LOOPBACK. rewrite Hn. reflexivity.
Qed.

Lemma route_probe_wins_witness :
  "192.168.1.42"%string <> "127.0.0.1"%string
  /\ get_best_ip (Delegate.routed "192.168.1.42" ["10.0.0.5"%string])
     = ret "192.168.1.42"%string.
Proof.
  assert (N : "192.168.1.42"%string <> "127.0.0.1"%string) by discriminate.
  split; [exact N|].
  apply (route_probe_wins (Delegate.routed "192.168.1.42" ["10.0.0.5"%string])
           "192.168.1.42"%string); try reflexivity. exact N.
Defined.

(** X2: the loopback address is the result exactly when both probes yield
    nothing: it is never returned while the route probe or the enumeration
    offers another address. *)
Theorem loopback_last_resort (net : Network) :
  get_best_ip net = ret "127.0.0.1"%string
  <-> route_probe_yields_nothing net /\ interface_probe_yields_nothing net.
Proof.
  destruct (get_best_ip_cases net) as [ra [rb [Ea [Eb E]]]].
  destruct (try_connect net) as [ra' [Ea' [Sa Na]]].
  destruct (try_interfaces net) as [rb' [Eb' [Sb Nb]]].
  rewrite Ea in Ea'. injection Ea' as <-.
  rewrite Eb in Eb'. injection Eb' as <-.
  rewrite E. split.
  - intros H. injection H as H.
    destruct ra as [ip|].
    { exfalso. destruct (Sa ip eq_refl) as [_ N]. apply N. exact H. }
    split; [apply Na; reflexivity|].
    destruct (socket_gethostname net) as [e|hostname] eqn:Eh;
      [left; exists e; exact Eh|].
    destruct (socket_gethostbyname_ex net hostname) as [e|ip_list] eqn:El.
    { right; left. exists hostname, e. split; [exact Eh | exact El]. }
    right; right. exists ip_list.
    assert (En : enumerated net ip_list) by (exists hostname; auto).
    split; [exact En|].
    specialize (Sb ip_list En).
    destruct rb as [ip|].
    + exfalso. symmetry in Sb.
      apply interfaces_result_not_loopback in Sb. apply Sb. exact H.
    + destruct (first_prefixed ip_list); [discriminate|].
      apply first_non_loopback_none. symmetry. exact Sb.
  - intros [Ra Rb]. apply Na in Ra. subst ra.
    destruct Rb as [[e He] | [[h [e [Hh He]]] | [l [En Fl]]]].
    + rewrite Nb; [reflexivity|]. intros l [? [H _]]. congruence.
    + rewrite Nb; [reflexivity|]. intros l [h' [H1 H2]].
      rewrite Hh in H1. injection H1 as <-. congruence.
    + rewrite (Sb l En). destruct (all_loopback_nothing l Fl) as [-> ->].
      reflexivity.
Qed.

End AddressSelectionMore.

(* ================================================================= *)
(** ** Further properties of port resolution *)

Section PortResolutionMore.
Import Py Beacon Spec.

(** X3: a port file that starts with two ASCII digits always resolves.
    If its first line is made of digits only, at most 4300 of them, the
    result is the value of that line; otherwise (a carriage return before
    the newline, a space, a letter, a byte above 127 in the line, or more
    than 4300 digits) the result is the big-endian reading of the two digit
    characters, a number between 12336 and 14649. *)
Theorem two_digit_start_resolves (w : World) (d0 d1 : byte) (rest : list byte) :
  ble_file w = Some (inr (d0 :: d1 :: rest)) ->
  is_digit_byte d0 = true ->
  is_digit_byte d1 = true ->
  (is_digit_line (first_line (d0 :: d1 :: rest)) = true
   /\ (List.length (first_line (d0 :: d1 :: rest)) <= 4300)%nat
   /\ get_uxplay_port w
      = ret (Some (decimal_value (first_line (d0 :: d1 :: rest)))))
  \/ ((is_digit_line (first_line (d0 :: d1 :: rest)) = false
       \/ (4300 < List.length (first_line (d0 :: d1 :: rest)))%nat)
      /\ get_uxplay_port w = ret (Some (256 * byte_val d0 + byte_val d1))
      /\ 12336 <= 256 * byte_val d0 + byte_val d1 <= 14649).
Proof.
  intros Hf H0 H1. rewrite (get_uxplay_port_readable w _ Hf).
  destruct (text_strategy (d0 :: d1 :: rest)) as [v|] eqn:Et.
  - left. destruct (text_strategy_inv _ _ Et) as [Hd [Hc ->]]. auto.
  - right. split; [apply text_strategy_none, Et|].
    destruct (binary_of_two_digits d0 d1 rest H0 H1) as [-> R].
    split; [reflexivity | exact R].
Qed.

Lemma two_digit_start_resolves_witness :
  is_digit_byte x37 = true /\ is_digit_byte x30 = true
  /\ is_digit_line (first_line [x37; x30; x30; x30; x0d; x0a]) = false
  /\ get_uxplay_port
       (Sample.run_with (Some (inr [x37; x30; x30; x30; x0d; x0a])))
     = ret (Some 14128).
Proof.
  split; [reflexivity|]. split; [reflexivity|]. split; [reflexivity|].
  destruct (two_digit_start_resolves
              (Sample.run_with (Some (inr [x37; x30; x30; x30; x0d; x0a])))
              x37 x30 [x30; x30; x0d; x0a] eq_refl eq_refl eq_refl)
    as [[E _] | [_ [G _]]].
  - vm_compute in E. discriminate.
  - exact G.
Defined.

(** X4: an empty first line.  When the file starts with a newline and has
    a second byte, the text after the newline is not looked at as text: the
    result is the big-endian reading of the newline and the byte after it,
    2560 plus that byte.  When the file starts with a null byte, the
    resolution fails with the parse error line, whatever follows. *)
Theorem empty_first_line (w : World) (content : list byte) :
  ble_file w = Some (inr content) ->
  (forall lo rest,
      content = x0a :: lo :: rest ->
      get_uxplay_port w = ret (Some (2560 + byte_val lo)))
  /\ (forall rest,
        content = x00 :: rest ->
        get_uxplay_port w = ([Print "Error: Could not parse port."], Ret None)).
Proof.
  intros Hf. rewrite (get_uxplay_port_readable w content Hf). split.
  - intros lo rest ->. pose proof (byte_val_range lo) as R.
    unfold text_strategy, first_line. cbn [take_until Byte.eqb].
    change (is_digit_line (take_until x00 [])) with false. cbv iota.
    unfold binary_strategy. cbv zeta.
    change (byte_val x0a) with 10.
    replace (256 * 10 + byte_val lo) with (2560 + byte_val lo) by lia.
    replace (1024 <=? 2560 + byte_val lo) with true
      by (symmetry; apply Z.leb_le; lia).
    replace (2560 + byte_val lo <=? 65535) with true
      by (symmetry; apply Z.leb_le; lia).
    reflexivity.
  - intros rest ->.
    assert (Ft : text_strategy (x00 :: rest) = None).
    { unfold text_strategy, first_line.
      destruct rest as [|b r]; [reflexivity|].
      cbn [take_until]. destruct (Byte.eqb x00 x0a) eqn:E; [discriminate|].
      reflexivity. }
    rewrite Ft. unfold binary_strategy.
    destruct rest as [|lo r]; [reflexivity|]. cbv zeta.
    pose proof (byte_val_range lo) as R. change (byte_val x00) with 0.
    replace (1024 <=? 256 * 0 + byte_val lo) with false
      by (symmetry; apply Z.leb_gt; lia).
    reflexivity.
Qed.

Lemma empty_first_line_witness :
  get_uxplay_port
    (Sample.run_with (Some (inr [x0a; x37; x30; x30; x30; x0a])))
  = ret (Some 2615).
Proof.
  destruct (empty_first_line
              (Sample.run_with (Some (inr [x0a; x37; x30; x30; x30; x0a])))
              [x0a; x37; x30; x30; x30; x0a] eq_refl) as [H _].
  exact (H x37 [x30; x30; x30; x0a] eq_refl).
Defined.

(** X5: a file of fewer than two bytes resolves only when it is a single
    ASCII digit, to that digit; the empty file and any other single byte
    give the parse error line. *)
Theorem short_file (w : World) (content : list byte) :
  ble_file w = Some (inr content) ->
  (List.length content < 2)%nat ->
  get_uxplay_port w
  = match content with
    | [b] =>
        if is_digit_byte b then ret (Some (byte_val b - 48))
        else ([Print "Error: Could not parse port."], Ret None)
    | _ => ([Print "Error: Could not parse port."], Ret None)
    end.
Proof.
  intros Hf Hl. rewrite (get_uxplay_port_readable w content Hf).
  destruct content as [|b [|c rest]]; [reflexivity | | simpl in Hl; lia].
  unfold text_strategy, first_line. cbn [take_until].
  destruct (Byte.eqb b x0a) eqn:Ea.
  - apply Byte.byte_dec_bl in Ea. subst b. reflexivity.
  - cbn [take_until]. destruct (Byte.eqb b x00) eqn:E0.
    + apply Byte.byte_dec_bl in E0. subst b. reflexivity.
    + unfold is_digit_line. cbn [List.length Nat.eqb negb forallb].
      rewrite andb_true_l, andb_true_r.
      destruct (is_digit_byte b); [|reflexivity].
      cbn [decimal_value List.length]. change (10 ^ Z.of_nat 0) with 1.
      replace ((byte_val b - 48) * 1 + 0) with (byte_val b - 48) by lia.
      reflexivity.
Qed.

Lemma short_file_witness :
  (List.length [x37] < 2)%nat
  /\ get_uxplay_port (Sample.run_with (Some (inr [x37]))) = ret (Some 7).
Proof.
  split; [simpl; lia|].
  apply (short_file (Sample.run_with (Some (inr [x37]))) [x37] eq_refl).
  simpl; lia.
Defined.

(** X6: a port that the script's text parsing yields comes from a first
    line of at most 4300 digits and is below ten to the number of those
    digits; with at most four digits it is at most 9999, and the payload
    assembly then returns for every address text [inet_aton] accepts. *)
Theorem text_port_digit_bound (content : list byte) (port : Z) :
  try_pass (parse_text content) = ret (Some port) ->
  (List.length (first_line content) <= 4300)%nat
  /\ 0 <= port < 10 ^ Z.of_nat (List.length (first_line content))
  /\ ((List.length (first_line content) <= 4)%nat ->
      port <= 9999
      /\ forall ip_str,
           Inet.has_nul ip_str = false ->
           Inet.inet_aton ip_str <> None ->
           exists payload, assemble ip_str port = ret payload).
Proof.
  rewrite try_parse_text. intros H. injection H as H.
  destruct (text_strategy_inv content port H) as [E [Hc ->]].
  unfold is_digit_line in E. apply andb_true_iff in E. destruct E as [_ E].
  pose proof (decimal_value_bound _ E) as B.
  split; [exact Hc|]. split; [exact B|].
  intros L.
  assert (P : 10 ^ Z.of_nat (List.length (first_line content)) <= 10 ^ 4)
    by (apply Z.pow_le_mono_r; lia).
  change (10 ^ 4) with 10000 in P.
  split; [lia|]. intros ip_str Hn Hi.
  assert (R : 0 <= decimal_value (first_line content) <= 65535) by lia.
  rewrite (assemble_unfold ip_str _ R).
  unfold Inet.socket_inet_aton. rewrite Hn.
  destruct (Inet.inet_aton ip_str); [|contradiction].
  eexists. reflexivity.
Qed.

Lemma text_port_digit_bound_witness :
  try_pass (parse_text [x37; x30; x30; x30; x0a]) = ret (Some 7000)
  /\ 0 <= 7000 < 10 ^ Z.of_nat (List.length (first_line [x37; x30; x30; x30; x0a])).
Proof.
  split; [reflexivity|].
  apply (text_port_digit_bound [x37; x30; x30; x30; x0a] 7000). reflexivity.
Defined.

End PortResolutionMore.

(* ================================================================= *)
(** ** Further properties of the start sequence *)

Section StartupMore.
Import Py Inet Beacon Spec Delegate.

(** The ways [get_uxplay_port] ends, by what is found at the path. *)
Lemma get_uxplay_port_cases (w : World) :
  match ble_file w with
  | None =>
      get_uxplay_port w
      = ([Print ("Error: " ++ BLE_FILE_PATH w ++ " not found. Run UxPlay first.")],
         Ret None)
  | Some (inl e) => get_uxplay_port w = ([], Raise e)
  | Some (inr content) =>
      (exists port, 0 <= port /\ get_uxplay_port w = ([], Ret (Some port)))
      \/ get_uxplay_port w = ([Print "Error: Could not parse port."], Ret None)
  end.
Proof.
  destruct (ble_file w) as [[e|content]|] eqn:Hf.
  - unfold get_uxplay_port. rewrite Hf. reflexivity.
  - rewrite (get_uxplay_port_readable w content Hf).
    destruct (text_strategy content) as [v|] eqn:Et.
    + left. exists v. split; [exact (text_strategy_nonneg _ _ Et) | reflexivity].
    + destruct (binary_strategy content) as [v|] eqn:Eb.
      * left. exists v. destruct (binary_strategy_range _ _ Eb) as [R _].
        split; [lia | reflexivity].
      * right. reflexivity.
  - unfold get_uxplay_port. rewrite Hf. reflexivity.
Qed.

(** X7: [get_uxplay_port] reports as follows.  With no file it prints the
    "not found" line and returns nothing; when reading the file raises, the
    exception leaves the function and nothing is printed; with a file read
    it either returns a port and prints nothing, or prints the parse error
    line and returns nothing.  It never ends the process itself. *)
Theorem get_uxplay_port_report (w : World) :
  match ble_file w with
  | None =>
      get_uxplay_port w
      = ([Print ("Error: " ++ BLE_FILE_PATH w ++ " not found. Run UxPlay first.")],
         Ret None)
  | Some (inl e) => get_uxplay_port w = ([], Raise e)
  | Some (inr content) =>
      (exists port, 0 <= port /\ get_uxplay_port w = ([], Ret (Some port)))
      \/ get_uxplay_port w = ([Print "Error: Could not parse port."], Ret None)
  end.
Proof. exact (get_uxplay_port_cases w). Qed.

Lemma get_uxplay_port_some_silent (w : World) (t : list event) (port : Z) :
  get_uxplay_port w = (t, Ret (Some port)) -> t = [].
Proof.
  intros H. pose proof (get_uxplay_port_cases w) as R.
  destruct (ble_file w) as [[e|content]|].
  - rewrite R in H. discriminate.
  - destruct R as [[p [_ R]] | R]; rewrite R in H.
    + injection H as <- _. reflexivity.
    + discriminate.
  - rewrite R in H. discriminate.
Qed.

(** X8: a port found by the binary strategy goes into the payload as the
    very two bytes the file starts with. *)
Theorem binary_port_bytes_verbatim
  (content : list byte) (port : Z) (ip_str : string) (payload : list byte) :
  binary_strategy content = Some port ->
  assemble ip_str port = ret payload ->
  exists head hi lo rest,
    content = hi :: lo :: rest
    /\ payload = head ++ [hi; lo]
    /\ List.length head = 10%nat.
Proof.
  intros Hb Ha.
  destruct (binary_strategy_range _ _ Hb) as [R [hi [lo [rest [Ec Ev]]]]].
  destruct (assemble_shape ip_str port) as [r [Ea Hr]].
  rewrite Ha in Ea. injection Ea as <-.
  destruct (Hr payload eq_refl) as [_ [ipb [Hl ->]]].
  pose proof (byte_val_range lo) as Rl.
  destruct (div_mod_at port 256 (byte_val hi) (byte_val lo) Rl Ev) as [Ed Em].
  rewrite Ed, Em, !byte_of_Z_val.
  exists ([x00; x4c; x09; x08; x13; x30] ++ ipb), hi, lo, rest.
  split; [exact Ec|]. split.
  - rewrite <- app_assoc. reflexivity.
  - rewrite length_app, Hl. reflexivity.
Qed.

Lemma binary_port_bytes_verbatim_witness :
  binary_strategy [x1f; x90; xff] = Some 8080
  /\ exists head hi lo rest,
       [x1f; x90; xff] = hi :: lo :: rest
       /\ [x00; x4c; x09; x08; x13; x30; x0a; x00; x00; x05; x1f; x90]
          = head ++ [hi; lo]
       /\ List.length head = 10%nat.
Proof.
  split; [reflexivity|].
  apply (binary_port_bytes_verbatim [x1f; x90; xff] 8080 "10.0.0.5");
    reflexivity.
Defined.

(** X9: the assembly returns exactly when the port fits sixteen bits, the
    address text holds no null character and [inet_aton] accepts it; what
    it returns is always twelve bytes, 00 4C 09 08 13 30 first and the
    port, high byte first, last.  This holds for every accepted address
    text, dotted quad or not. *)
Theorem assemble_returns_iff (ip_str : string) (port : Z) :
  ((exists payload, assemble ip_str port = ret payload)
   <-> 0 <= port <= 65535
       /\ has_nul ip_str = false
       /\ inet_aton ip_str <> None)
  /\ forall payload,
       assemble ip_str port = ret payload ->
       List.length payload = 12%nat
       /\ firstn 6 payload = [x00; x4c; x09; x08; x13; x30]
       /\ skipn 10 payload
          = [byte_of_Z (port / 256); byte_of_Z (port mod 256)].
Proof.
  split.
  - split.
    + intros [payload H].
      destruct (assemble_shape ip_str port) as [r [Ea Hr]].
      rewrite H in Ea. injection Ea as <-.
      destruct (Hr payload eq_refl) as [R _]. split; [exact R|].
      rewrite (assemble_unfold ip_str port R) in H.
      unfold socket_inet_aton in H.
      destruct (has_nul ip_str); [discriminate|].
      destruct (inet_aton ip_str); [|discriminate].
      split; [reflexivity | discriminate].
    + intros [R [Hn Hi]].
      rewrite (assemble_unfold ip_str port R). unfold socket_inet_aton.
      rewrite Hn. destruct (inet_aton ip_str) as [addr|]; [|contradiction].
      eexists. reflexivity.
  - intros payload H.
    destruct (assemble_shape ip_str port) as [r [Ea Hr]].
    rewrite H in Ea. injection Ea as <-.
    destruct (Hr payload eq_refl) as [_ [ipb [Hl ->]]].
    destruct ipb as [|b0 [|b1 [|b2 [|b3 [|? ?]]]]]; try discriminate.
    repeat split; reflexivity.
Qed.

(** X10: the address is converted before the port is packed, so a bad
    address is what is reported when both are bad: the assembly raises
    [ValueError] for a text with a null character, else [OSError] for a
    text [inet_aton] rejects, and [struct.error] only for an accepted
    address with a port outside [0, 65535]. *)
Theorem assemble_error_order (ip_str : string) (port : Z) :
  (has_nul ip_str = true -> assemble ip_str port = raise ValueError)
  /\ (has_nul ip_str = false -> inet_aton ip_str = None ->
      assemble ip_str port = raise OSError)
  /\ (has_nul ip_str = false -> inet_aton ip_str <> None ->
      port < 0 \/ 65535 < port ->
      assemble ip_str port = raise StructError).
Proof.
  unfold assemble, socket_inet_aton.
  split; [|split].
  - intros ->. reflexivity.
  - intros -> ->. reflexivity.
  - intros -> Hi Hp. destruct (inet_aton ip_str); [|contradiction].
    rewrite (struct_pack_H_out_of_range port Hp). reflexivity.
Qed.

Lemma assemble_error_order_witness :
  has_nul "not-an-ip" = false /\ inet_aton "not-an-ip" = None
  /\ assemble "not-an-ip" 70000 = raise OSError.
Proof.
  split; [reflexivity|]. split; [reflexivity|].
  destruct (assemble_error_order "not-an-ip" 70000) as [_ [H _]].
  apply H; reflexivity.
Defined.

(** X11: a text port above 65535 is not refused by the resolution; the
    start then prints the "Broadcasting" line with that port and ends with an
    exception, without any advertisement: [struct.error] when the selected
    address is one [inet_aton] accepts. *)
Theorem oversize_port_raises (w : World) (port : Z) :
  result (get_uxplay_port w) = Ret (Some port) ->
  65535 < port ->
  exists ip_str e,
    get_best_ip (network w) = ret ip_str
    /\ start_advertising w
       = ([Print ("Broadcasting: UxPlay @ " ++ ip_str ++ ":" ++ str_of_int port)],
          Raise e)
    /\ (has_nul ip_str = false -> inet_aton ip_str <> None -> e = StructError).
Proof.
  intros Hr Hp.
  destruct (get_uxplay_port w) as [t r] eqn:E. simpl in Hr. subst r.
  pose proof (get_uxplay_port_some_silent w t port E) as ->.
  destruct (start_advertising_resolved w [] port E ltac:(lia))
    as [ip [Eip [[pl [Ea Es]] | [e [Ea Es]]]]].
  - exfalso. destruct (assemble_shape ip port) as [r [Ea' Hr]].
    rewrite Ea in Ea'. injection Ea' as <-.
    destruct (Hr pl eq_refl) as [R _]. lia.
  - exists ip, e. split; [exact Eip|]. split; [exact Es|].
    intros Hn Hi. revert Ea. unfold assemble, socket_inet_aton.
    rewrite Hn. destruct (inet_aton ip); [|contradiction].
    rewrite (struct_pack_H_out_of_range port) by lia.
    intros H. injection H as <-. reflexivity.
Qed.

Lemma oversize_port_raises_witness :
  result (get_uxplay_port
            (Sample.run_with (Some (inr [x37; x30; x30; x30; x30]))))
  = Ret (Some 70000)
  /\ 65535 < 70000
  /\ start_advertising
       (Sample.run_with (Some (inr [x37; x30; x30; x30; x30])))
     = ([Print "Broadcasting: UxPlay @ 192.168.1.42:70000"], Raise StructError).
Proof.
  split; [reflexivity|]. split; [lia|].
  destruct (oversize_port_raises
              (Sample.run_with (Some (inr [x37; x30; x30; x30; x30])))
              70000 eq_refl ltac:(lia)) as [ip [e [Eip [Es He]]]].
  injection Eip as <-. rewrite Es, He; [reflexivity | reflexivity |].
  vm_compute. discriminate.
Defined.

(** X12: the full start.  With a resolved port in [1, 65535] and a
    selected address that is the dotted quad [a.b.c.d], [start_advertising]
    prints the "Broadcasting" line, calls [startAdvertising_] once, under the
    name "UxPlay", with the twelve bytes 00 4C 09 08 13 30 a b c d and the
    port high byte first, prints the "Beacon active" line and returns. *)
Theorem start_advertising_success (w : World) (port : Z) (a b c d : nat) :
  result (get_uxplay_port w) = Ret (Some port) ->
  1 <= port <= 65535 ->
  get_best_ip (network w) = ret (dotted_quad a b c d) ->
  (a < 256)%nat -> (b < 256)%nat -> (c < 256)%nat -> (d < 256)%nat ->
  start_advertising w
  = ([Print ("Broadcasting: UxPlay @ " ++ dotted_quad a b c d ++ ":"
             ++ str_of_int port);
      StartAdvertising "UxPlay"
        [x00; x4c; x09; x08; x13; x30;
         byte_of_Z (Z.of_nat a); byte_of_Z (Z.of_nat b);
         byte_of_Z (Z.of_nat c); byte_of_Z (Z.of_nat d);
         byte_of_Z (port / 256); byte_of_Z (port mod 256)];
      Print "Beacon active. (Ctrl+C to stop)"],
     Ret tt).
Proof.
  intros Hr Hp Hip Ha Hb Hc Hd.
  destruct (get_uxplay_port w) as [t r] eqn:E. simpl in Hr. subst r.
  pose proof (get_uxplay_port_some_silent w t port E) as ->.
  assert (Ea : assemble (dotted_quad a b c d) port
               = ret [x00; x4c; x09; x08; x13; x30;
                      byte_of_Z (Z.of_nat a); byte_of_Z (Z.of_nat b);
                      byte_of_Z (Z.of_nat c); byte_of_Z (Z.of_nat d);
                      byte_of_Z (port / 256); byte_of_Z (port mod 256)]).
  { rewrite (assemble_unfold _ port ltac:(lia)).
    rewrite (inet_aton_dotted_quad a b c d Ha Hb Hc Hd). reflexivity. }
  destruct (start_advertising_resolved w [] port E ltac:(lia))
    as [ip [Eip [[pl [Ea' Es]] | [e [Ea' Es]]]]];
    rewrite Hip in Eip; injection Eip as <-; rewrite Ea in Ea'.
  - injection Ea' as <-. exact Es.
  - discriminate.
Qed.

Lemma start_advertising_success_witness :
  result (get_uxplay_port (Sample.run_with (Some (inr [x37; x30; x30; x30; x0a]))))
  = Ret (Some 7000)
  /\ 1 <= 7000 <= 65535
  /\ start_advertising (Sample.run_with (Some (inr [x37; x30; x30; x30; x0a])))
     = ([Print "Broadcasting: UxPlay @ 192.168.1.42:7000";
         StartAdvertising "UxPlay"
           [x00; x4c; x09; x08; x13; x30; xc0; xa8; x01; x2a; x1b; x58];
         Print "Beacon active. (Ctrl+C to stop)"],
        Ret tt).
Proof.
  split; [reflexivity|]. split; [lia|].
  apply (start_advertising_success
           (Sample.run_with (Some (inr [x37; x30; x30; x30; x0a])))
           7000 192 168 1 42);
    try reflexivity; lia.
Defined.

(** The ways [start_advertising] ends. *)
Lemma start_advertising_ends (w : World) :
  (exists t,
      start_advertising w
      = (t ++ [Print "Failed to get port. Exiting."], SysExit 1)
      /\ prints_only t)
  \/ (exists t e, start_advertising w = (t, Raise e) /\ prints_only t)
  \/ (exists ip_str port payload,
        start_advertising w
        = ([Print ("Broadcasting: UxPlay @ " ++ ip_str ++ ":"
                   ++ str_of_int port);
            StartAdvertising "UxPlay" payload;
            Print "Beacon active. (Ctrl+C to stop)"],
           Ret tt)
        /\ List.length payload = 12%nat
        /\ 1 <= port <= 65535).
Proof.
  pose proof (get_uxplay_port_prints_only w) as P.
  pose proof (get_uxplay_port_cases w) as R.
  destruct (get_uxplay_port w) as [t [[port|]|e|c]] eqn:E.
  - destruct (Z.eq_dec port 0) as [Z0|NZ].
    + left. exists t. split; [|exact P].
      unfold start_advertising. rewrite E. subst port. reflexivity.
    + pose proof (get_uxplay_port_some_silent w t port E) as ->.
      destruct (start_advertising_resolved w [] port E NZ)
        as [ip [_ [[pl [Ea Es]] | [e [Ea Es]]]]].
      * right; right. exists ip, port, pl. split; [exact Es|].
        destruct (assemble_shape ip port) as [r [Ea' Hr]].
        rewrite Ea in Ea'. injection Ea' as <-.
        destruct (Hr pl eq_refl) as [Rp [ipb [Hl ->]]].
        split; [|lia]. rewrite !length_app, Hl. reflexivity.
      * right; left. eexists. exists e. split; [exact Es|].
        repeat constructor. eauto.
  - left. exists t. split; [|exact P].
    apply start_advertising_unresolved, E.
  - right; left. exists t, e. split; [|exact P].
    unfold start_advertising. rewrite E. reflexivity.
  - exfalso. destruct (ble_file w) as [[e|content]|].
    + discriminate.
    + destruct R as [[p [_ R]] | R]; discriminate.
    + discriminate.
Qed.

(** X13: [start_advertising] ends in one of three ways.  It leaves through
    [sys.exit(1)] after its failure line, having advertised nothing; or it
    ends with an exception, having advertised nothing; or it returns, and
    then its last three events are the "Broadcasting" line, one call of
    [startAdvertising_] under the name "UxPlay" with a payload of twelve
    bytes, and the "Beacon active" line.  It never returns without having
    advertised, never advertises twice, and never exits with another
    status. *)
Theorem start_advertising_outcomes (w : World) :
  (exists t,
      start_advertising w
      = (t ++ [Print "Failed to get port. Exiting."], SysExit 1)
      /\ prints_only t)
  \/ (exists t e, start_advertising w = (t, Raise e) /\ prints_only t)
  \/ (exists ip_str port payload,
        start_advertising w
        = ([Print ("Broadcasting: UxPlay @ " ++ ip_str ++ ":"
                   ++ str_of_int port);
            StartAdvertising "UxPlay" payload;
            Print "Beacon active. (Ctrl+C to stop)"],
           Ret tt)
        /\ List.length payload = 12%nat
        /\ 1 <= port <= 65535).
Proof. exact (start_advertising_ends w). Qed.

(** X14: the delegate callback does nothing at all in any state other than
    powered on: no file is read, nothing is printed.  Every call of
    [startAdvertising_] it makes happens in the powered-on state, under the
    name "UxPlay", with a payload of twelve bytes. *)
Theorem callback_advertises_only_powered_on
  (state : CBManagerState) (w : World) :
  (state <> CBManagerStatePoweredOn ->
   peripheralManagerDidUpdateState_ state w = ret tt)
  /\ (forall name payload,
        In (StartAdvertising name payload)
           (trace (peripheralManagerDidUpdateState_ state w)) ->
        state = CBManagerStatePoweredOn
        /\ name = "UxPlay"%string
        /\ List.length payload = 12%nat).
Proof.
  split.
  - intros N. destruct state; try reflexivity. contradiction.
  - intros name payload Hin.
    destruct state; try (simpl in Hin; contradiction).
    split; [reflexivity|].
    change (peripheralManagerDidUpdateState_ CBManagerStatePoweredOn w)
      with (start_advertising w) in Hin.
    destruct (start_advertising_ends w)
      as [[t [Es P]] | [[t [e [Es P]]] | [ip [port [pl [Es [Hl _]]]]]]];
      rewrite Es in Hin; simpl in Hin.
    + exfalso. apply in_app_or in Hin. destruct Hin as [Hin | [Hin | []]].
      * exact (prints_only_no_advertising t name payload P Hin).
      * discriminate.
    + exfalso. exact (prints_only_no_advertising t name payload P Hin).
    + destruct Hin as [Hin | [Hin | [Hin | []]]]; try discriminate.
      injection Hin as <- <-. split; [reflexivity | exact Hl].
Qed.

End StartupMore.
